(** * Provider configuration of the Secure Network Analytics provider

    A shallow embedding of [internal/provider/provider.go]: the
    [Configure] method of [snaProvider], together with the part of the
    plugin framework it calls ([types.String], [diag.Diagnostics],
    [path.Root]), the process environment ([os.Getenv]), the structured
    logger ([tflog]) and the client constructor ([sna.NewClient]).

    [Configure] mutates the response it receives by pointer and leaves by
    [return] in the middle of its body; it is written here in a small
    monad that passes the response and a trace of the external calls, and
    that stops at the first [return_]. *)

From stdpp Require Import base gmap strings list.

Local Open Scope string_scope.
Local Open Scope list_scope.

(** The line feed of Go's ["\n"]. *)
Definition newline : string := String (Ascii.ascii_of_nat 10) EmptyString.

(** ** The framework types *)

(** [types.String]: null, unknown, or a known value. *)
Inductive types_String : Type :=
  | StringNull
  | StringUnknown
  | StringValue (s : string).

Definition IsNull (v : types_String) : bool :=
  match v with StringNull => true | _ => false end.

Definition IsUnknown (v : types_String) : bool :=
  match v with StringUnknown => true | _ => false end.

(** [ValueString] is the empty string for a null or unknown value. *)
Definition ValueString (v : types_String) : string :=
  match v with StringValue s => s | _ => "" end.

(** [snaProviderModel] maps provider schema data to a Go type. *)
Record snaProviderModel : Type := {
  Host : types_String;
  Username : types_String;
  Password : types_String;
}.

(** [path.Path]: the code only builds [path.Root(name)]. *)
Inductive path_Path : Type :=
  | path_Root (name : string).

Inductive diag_Severity : Type :=
  | SeverityInvalid
  | SeverityError
  | SeverityWarning.

(** A diagnostic: its severity, summary and detail, and the attribute
    path for the diagnostics made by [AddAttributeError]. *)
Record diag_Diagnostic : Type := {
  Severity : diag_Severity;
  Summary : string;
  Detail : string;
  AttributePath : option path_Path;
}.

Abbreviation diag_Diagnostics := (list diag_Diagnostic).

#[global] Instance path_Path_eq_dec : EqDecision path_Path.
Proof. solve_decision. Defined.

#[global] Instance diag_Severity_eq_dec : EqDecision diag_Severity.
Proof. solve_decision. Defined.

#[global] Instance diag_Diagnostic_eq_dec : EqDecision diag_Diagnostic.
Proof. solve_decision. Defined.

Definition NewErrorDiagnostic (summary detail : string) : diag_Diagnostic :=
  {| Severity := SeverityError; Summary := summary; Detail := detail;
     AttributePath := None |}.

Definition NewAttributeErrorDiagnostic (p : path_Path) (summary detail : string)
  : diag_Diagnostic :=
  {| Severity := SeverityError; Summary := summary; Detail := detail;
     AttributePath := Some p |}.

(** [Diagnostics.HasError]: some entry has severity error. *)
Definition HasError (diags : diag_Diagnostics) : bool :=
  existsb (λ d, bool_decide (Severity d = SeverityError)) diags.

(** [Diagnostics.Contains]: some entry equals the given one. *)
Definition Contains (diags : diag_Diagnostics) (d : diag_Diagnostic) : bool :=
  existsb (λ d', bool_decide (d' = d)) diags.

(** [Diagnostics.Append] of the framework adds, in order, each diagnostic
    that the collection does not contain yet. *)
Fixpoint Append (diags : diag_Diagnostics) (new : diag_Diagnostics)
  : diag_Diagnostics :=
  match new with
  | [] => diags
  | d :: new' =>
      if Contains diags d then Append diags new'
      else Append (diags ++ [d]) new'
  end.

(** ** The structured logger *)

Inductive tflog_Level : Type := LevelDebug | LevelInfo.

(** The logging context: the fields set on it, a map from keys to values,
    and the keys whose values are masked in every record written with
    it. *)
Record tflog_Context : Type := {
  log_fields : gmap string string;
  log_masked : list string;
}.

(** [tflog.SetField] sets the field [key], replacing the value of a field
    the context already has under this key. *)
Definition tflog_SetField (ctx : tflog_Context) (key value : string)
  : tflog_Context :=
  {| log_fields := <[key := value]> (log_fields ctx);
     log_masked := log_masked ctx |}.

Definition tflog_MaskFieldValuesWithFieldKeys (ctx : tflog_Context)
    (key : string) : tflog_Context :=
  {| log_fields := log_fields ctx;
     log_masked := log_masked ctx ++ [key] |}.

(** ** Request, response and the outside world *)

Record ConfigureRequest : Type := {
  (** What [req.Config.Get] decodes: the model and its diagnostics. *)
  Config_Get : snaProviderModel * diag_Diagnostics;
}.

Record ConfigureResponse (Client : Type) : Type := {
  Diagnostics : diag_Diagnostics;
  DataSourceData : option Client;
  ResourceData : option Client;
}.
Arguments Diagnostics {Client} _.
Arguments DataSourceData {Client} _.
Arguments ResourceData {Client} _.

(** The calls [Configure] makes outside the framework, in order. *)
Inductive Event : Type :=
  | EvLog (level : tflog_Level) (ctx : tflog_Context) (msg : string)
          (fields : list (string * string))
  | EvGetenv (key : string)
  | EvNewClient (host username password : string).

#[global] Instance tflog_Level_eq_dec : EqDecision tflog_Level.
Proof. solve_decision. Defined.

#[global] Instance tflog_Context_eq_dec : EqDecision tflog_Context.
Proof. solve_decision. Defined.

#[global] Instance Event_eq_dec : EqDecision Event.
Proof. solve_decision. Defined.

(** The process environment and the client library: [sna_NewClient]
    answers with a client and an error, [None] for Go's [nil] error and
    [Some text] for an error whose [Error()] is [text]. *)
Record Extern (Client : Type) : Type := {
  environ : gmap string string;
  sna_NewClient : string → string → string → Client * option string;
}.
Arguments environ {Client} _.
Arguments sna_NewClient {Client} _ _ _ _.

Record State (Client : Type) : Type := {
  resp : ConfigureResponse Client;
  trace : list Event;
}.
Arguments resp {Client} _.
Arguments trace {Client} _.

(** ** The monad of [Configure] *)

(** A computation reads the outside world and passes the state; its
    result is [None] once the function has returned. *)
Definition M (Client : Type) (A : Type) : Type :=
  Extern Client → State Client → option A * State Client.

#[global] Instance M_ret {Client} : MRet (M Client) :=
  λ A a _ st, (Some a, st).

#[global] Instance M_bind {Client} : MBind (M Client) :=
  λ A B f m ext st,
    match m ext st with
    | (Some a, st') => f a ext st'
    | (None, st') => (None, st')
    end.

Section Provider.
Context {Client : Type}.

#[local] Abbreviation M := (M Client).

(** Go's [return] of a function without results. *)
Definition return_ {A} : M A := λ _ st, (None, st).

Definition emit (e : Event) : M unit :=
  λ _ st, (Some (), {| resp := resp st; trace := trace st ++ [e] |}).

Definition modify_resp (f : ConfigureResponse Client → ConfigureResponse Client)
  : M unit :=
  λ _ st, (Some (), {| resp := f (resp st); trace := trace st |}).

Definition when_ (b : bool) (m : M unit) : M unit :=
  if b then m else mret ().

(** [os.Getenv]: the empty string for a variable that is not set. *)
Definition os_Getenv (key : string) : M string :=
  λ ext st,
    (Some (default "" (environ ext !! key)),
     {| resp := resp st; trace := trace st ++ [EvGetenv key] |}).

Definition tflog_Info (ctx : tflog_Context) (msg : string)
    (fields : list (string * string)) : M unit :=
  emit (EvLog LevelInfo ctx msg fields).

Definition tflog_Debug (ctx : tflog_Context) (msg : string)
    (fields : list (string * string)) : M unit :=
  emit (EvLog LevelDebug ctx msg fields).

Definition call_NewClient (host username password : string)
  : M (Client * option string) :=
  λ ext st,
    (Some (sna_NewClient ext host username password),
     {| resp := resp st;
        trace := trace st ++ [EvNewClient host username password] |}).

(** The methods of [resp.Diagnostics]. *)
Definition resp_Diagnostics_Append (diags : diag_Diagnostics) : M unit :=
  modify_resp (λ r,
    {| Diagnostics := Append (Diagnostics r) diags;
       DataSourceData := DataSourceData r;
       ResourceData := ResourceData r |}).

Definition resp_Diagnostics_HasError : M bool :=
  λ _ st, (Some (HasError (Diagnostics (resp st))), st).

Definition resp_Diagnostics_AddAttributeError (p : path_Path)
    (summary detail : string) : M unit :=
  resp_Diagnostics_Append [NewAttributeErrorDiagnostic p summary detail].

Definition resp_Diagnostics_AddError (summary detail : string) : M unit :=
  resp_Diagnostics_Append [NewErrorDiagnostic summary detail].

Definition set_DataSourceData (c : Client) : M unit :=
  modify_resp (λ r,
    {| Diagnostics := Diagnostics r;
       DataSourceData := Some c;
       ResourceData := ResourceData r |}).

Definition set_ResourceData (c : Client) : M unit :=
  modify_resp (λ r,
    {| Diagnostics := Diagnostics r;
       DataSourceData := DataSourceData r;
       ResourceData := Some c |}).

(** ** [Configure] *)

Definition Configure (ctx : tflog_Context) (req : ConfigureRequest) : M unit :=
  tflog_Info ctx "Configuring Secure Network Analytics client" [];;
  (* Retrieve provider data from configuration *)
  let '(config, diags) := Config_Get req in
  resp_Diagnostics_Append diags;;
  hasError ← resp_Diagnostics_HasError;
  when_ hasError return_;;

  (* If practitioner provided a configuration value for any of the
     attributes, it must be a known value. *)
  when_ (IsUnknown (Host config))
    (resp_Diagnostics_AddAttributeError
       (path_Root "host")
       "Unknown Secure Network Analytics API Host"
       ("The provider cannot create the Secure Network Analytics API client as there is an unknown configuration value for the Secure Network Analytics API host. " +:+
        "Either target apply the source of the value first, set the value statically in the configuration, or use the SNA_HOST environment variable."));;
  when_ (IsUnknown (Username config))
    (resp_Diagnostics_AddAttributeError
       (path_Root "username")
       "Unknown Secure Network Analytics API Username"
       ("The provider cannot create the Secure Network Analytics API client as there is an unknown configuration value for the Secure Network Analytics API username. " +:+
        "Either target apply the source of the value first, set the value statically in the configuration, or use the SNA_USERNAME environment variable."));;
  when_ (IsUnknown (Password config))
    (resp_Diagnostics_AddAttributeError
       (path_Root "password")
       "Unknown Secure Network Analytics API Password"
       ("The provider cannot create the Secure Network Analytics API client as there is an unknown configuration value for the Secure Network Analytics API password. " +:+
        "Either target apply the source of the value first, set the value statically in the configuration, or use the SNA_PASSWORD environment variable."));;
  hasError ← resp_Diagnostics_HasError;
  when_ hasError return_;;

  (* Default values to environment variables, but override
     with Terraform configuration value if set. *)
  host ← os_Getenv "SNA_HOST";
  username ← os_Getenv "SNA_USERNAME";
  password ← os_Getenv "SNA_PASSWORD";
  let host :=
    if negb (IsNull (Host config)) then ValueString (Host config) else host in
  let username :=
    if negb (IsNull (Username config)) then ValueString (Username config)
    else username in
  let password :=
    if negb (IsNull (Password config)) then ValueString (Password config)
    else password in

  (* If any of the expected configurations are missing, return
     errors with provider-specific guidance. *)
  when_ (String.eqb host "")
    (resp_Diagnostics_AddAttributeError
       (path_Root "host")
       "Missing Secure Network Analytics API Host"
       ("The provider cannot create the Secure Network Analytics API client as there is a missing or empty value for the Secure Network Analytics API host. " +:+
        "Set the host value in the configuration or use the SNA_HOST environment variable. " +:+
        "If either is already set, ensure the value is not empty."));;
  when_ (String.eqb username "")
    (resp_Diagnostics_AddAttributeError
       (path_Root "username")
       "Missing Secure Network Analytics API Username"
       ("The provider cannot create the Secure Network Analytics API client as there is a missing or empty value for the Secure Network Analytics API username. " +:+
        "Set the username value in the configuration or use the SNA_USERNAME environment variable. " +:+
        "If either is already set, ensure the value is not empty."));;
  when_ (String.eqb password "")
    (resp_Diagnostics_AddAttributeError
       (path_Root "password")
       "Missing Secure Network Analytics API Password"
       ("The provider cannot create the Secure Network Analytics API client as there is a missing or empty value for the Secure Network Analytics API password. " +:+
        "Set the password value in the configuration or use the SNA_PASSWORD environment variable. " +:+
        "If either is already set, ensure the value is not empty."));;
  hasError ← resp_Diagnostics_HasError;
  when_ hasError return_;;

  let ctx := tflog_SetField ctx "sna_host" host in
  let ctx := tflog_SetField ctx "sna_username" username in
  let ctx := tflog_SetField ctx "sna_password" password in
  let ctx := tflog_MaskFieldValuesWithFieldKeys ctx "sna_password" in

  tflog_Debug ctx "Creating Secure Network Analytics client" [];;

  (* Create a new Secure Network Analytics client using the
     configuration values *)
  '(client, err) ← call_NewClient host username password;
  match err with
  | Some text =>
      resp_Diagnostics_AddError
        "Unable to Create Secure Network Analytics API Client"
        ("An unexpected error occurred when creating the Secure Network Analytics API client. " +:+
         "If the error is not clear, please contact the provider developers." +:+
         newline +:+ newline +:+
         "Secure Network Analytics Client Error: " +:+ text);;
      return_
  | None => mret ()
  end;;

  (* Make the Secure Network Analytics client available during
     DataSource and Resource type Configure methods. *)
  set_DataSourceData client;;
  set_ResourceData client;;

  tflog_Info ctx "Configured Secure Network Analytics client"
    [("success", "true")].

(** The state [Configure] leaves, started on response [r0] with an
    empty trace. *)
Definition run_Configure (ext : Extern Client) (ctx : tflog_Context)
    (req : ConfigureRequest) (r0 : ConfigureResponse Client) : State Client :=
  snd (Configure ctx req ext {| resp := r0; trace := [] |}).

End Provider.

(** ** The diagnostics [Configure] makes, and its result in closed form *)

(** The three attributes of the provider schema. *)
Inductive Field : Type := FHost | FUsername | FPassword.

Definition all_fields : list Field := [FHost; FUsername; FPassword].

Definition field_value (config : snaProviderModel) (f : Field) : types_String :=
  match f with
  | FHost => Host config
  | FUsername => Username config
  | FPassword => Password config
  end.

(** The attribute name in the schema. *)
Definition field_name (f : Field) : string :=
  match f with
  | FHost => "host"
  | FUsername => "username"
  | FPassword => "password"
  end.

(** The environment variable read for the attribute. *)
Definition field_env (f : Field) : string :=
  match f with
  | FHost => "SNA_HOST"
  | FUsername => "SNA_USERNAME"
  | FPassword => "SNA_PASSWORD"
  end.

(** The diagnostic of lines 86-111 for an unknown value. *)
Definition unknown_diag (f : Field) : diag_Diagnostic :=
  match f with
  | FHost =>
      NewAttributeErrorDiagnostic (path_Root "host")
        "Unknown Secure Network Analytics API Host"
        "The provider cannot create the Secure Network Analytics API client as there is an unknown configuration value for the Secure Network Analytics API host. Either target apply the source of the value first, set the value statically in the configuration, or use the SNA_HOST environment variable."
  | FUsername =>
      NewAttributeErrorDiagnostic (path_Root "username")
        "Unknown Secure Network Analytics API Username"
        "The provider cannot create the Secure Network Analytics API client as there is an unknown configuration value for the Secure Network Analytics API username. Either target apply the source of the value first, set the value statically in the configuration, or use the SNA_USERNAME environment variable."
  | FPassword =>
      NewAttributeErrorDiagnostic (path_Root "password")
        "Unknown Secure Network Analytics API Password"
        "The provider cannot create the Secure Network Analytics API client as there is an unknown configuration value for the Secure Network Analytics API password. Either target apply the source of the value first, set the value statically in the configuration, or use the SNA_PASSWORD environment variable."
  end.

(** The diagnostic of lines 139-167 for an empty merged value. *)
Definition missing_diag (f : Field) : diag_Diagnostic :=
  match f with
  | FHost =>
      NewAttributeErrorDiagnostic (path_Root "host")
        "Missing Secure Network Analytics API Host"
        "The provider cannot create the Secure Network Analytics API client as there is a missing or empty value for the Secure Network Analytics API host. Set the host value in the configuration or use the SNA_HOST environment variable. If either is already set, ensure the value is not empty."
  | FUsername =>
      NewAttributeErrorDiagnostic (path_Root "username")
        "Missing Secure Network Analytics API Username"
        "The provider cannot create the Secure Network Analytics API client as there is a missing or empty value for the Secure Network Analytics API username. Set the username value in the configuration or use the SNA_USERNAME environment variable. If either is already set, ensure the value is not empty."
  | FPassword =>
      NewAttributeErrorDiagnostic (path_Root "password")
        "Missing Secure Network Analytics API Password"
        "The provider cannot create the Secure Network Analytics API client as there is a missing or empty value for the Secure Network Analytics API password. Set the password value in the configuration or use the SNA_PASSWORD environment variable. If either is already set, ensure the value is not empty."
  end.

Definition construction_summary : string :=
  "Unable to Create Secure Network Analytics API Client".

Definition construction_prefix : string :=
  "An unexpected error occurred when creating the Secure Network Analytics API client. If the error is not clear, please contact the provider developers." +:+
  newline +:+ newline +:+ "Secure Network Analytics Client Error: ".

(** The diagnostic of lines 183-188 for a client error [text]. *)
Definition construction_diag (text : string) : diag_Diagnostic :=
  NewErrorDiagnostic construction_summary (construction_prefix +:+ text).

(** The value of the local variable of lines 120-134 for an attribute:
    the configuration value unless it is null, else the environment's. *)
Definition merged_value (config : snaProviderModel) (env : gmap string string)
    (f : Field) : string :=
  if negb (IsNull (field_value config f)) then ValueString (field_value config f)
  else default "" (env !! field_env f).

(** The diagnostics of the unknown values, in the order of lines 86-111. *)
Definition unknown_diags (config : snaProviderModel) : diag_Diagnostics :=
  all_fields ≫= λ f,
    if IsUnknown (field_value config f) then [unknown_diag f] else [].

(** The diagnostics of the empty merged values, in the order of lines
    139-167. *)
Definition missing_diags (config : snaProviderModel) (env : gmap string string)
  : diag_Diagnostics :=
  all_fields ≫= λ f,
    if String.eqb (merged_value config env f) "" then [missing_diag f] else [].

(** The logging context of lines 173-176. *)
Definition client_ctx (ctx : tflog_Context) (host username password : string)
  : tflog_Context :=
  tflog_MaskFieldValuesWithFieldKeys
    (tflog_SetField
       (tflog_SetField (tflog_SetField ctx "sna_host" host)
          "sna_username" username)
       "sna_password" password)
    "sna_password".

Definition start_trace (ctx : tflog_Context) : list Event :=
  [EvLog LevelInfo ctx "Configuring Secure Network Analytics client" []].

Definition getenv_trace : list Event :=
  [EvGetenv "SNA_HOST"; EvGetenv "SNA_USERNAME"; EvGetenv "SNA_PASSWORD"].

(** The trace up to the call of [sna.NewClient]. *)
Definition client_trace (ctx : tflog_Context) (host username password : string)
  : list Event :=
  start_trace ctx ++ getenv_trace ++
  [EvLog LevelDebug (client_ctx ctx host username password)
     "Creating Secure Network Analytics client" [];
   EvNewClient host username password].

Section Outcome.
Context {Client : Type}.

(** The diagnostics of the response once the configuration is read
    (line 78). *)
Definition read_diags (req : ConfigureRequest) (r0 : ConfigureResponse Client)
  : diag_Diagnostics :=
  Append (Diagnostics r0) (snd (Config_Get req)).

(** A failed [Configure]: only the diagnostics and the trace change. *)
Definition failed (r0 : ConfigureResponse Client) (diags : diag_Diagnostics)
    (t : list Event) : State Client :=
  {| resp := {| Diagnostics := diags;
                DataSourceData := DataSourceData r0;
                ResourceData := ResourceData r0 |};
     trace := t |}.

(** The state [Configure] leaves, path by path. *)
Definition outcome (ext : Extern Client) (ctx : tflog_Context)
    (req : ConfigureRequest) (r0 : ConfigureResponse Client) : State Client :=
  let config := fst (Config_Get req) in
  let pre := read_diags req r0 in
  if HasError pre then failed r0 pre (start_trace ctx)
  else
    match unknown_diags config with
    | _ :: _ => failed r0 (pre ++ unknown_diags config) (start_trace ctx)
    | [] =>
        match missing_diags config (environ ext) with
        | _ :: _ =>
            failed r0 (pre ++ missing_diags config (environ ext))
              (start_trace ctx ++ getenv_trace)
        | [] =>
            let host := merged_value config (environ ext) FHost in
            let username := merged_value config (environ ext) FUsername in
            let password := merged_value config (environ ext) FPassword in
            let ctx' := client_ctx ctx host username password in
            let t := client_trace ctx host username password in
            match sna_NewClient ext host username password with
            | (_, Some text) => failed r0 (pre ++ [construction_diag text]) t
            | (client, None) =>
                {| resp := {| Diagnostics := pre;
                              DataSourceData := Some client;
                              ResourceData := Some client |};
                   trace :=
                     t ++ [EvLog LevelInfo ctx'
                             "Configured Secure Network Analytics client"
                             [("success", "true")]] |}
            end
        end
    end.

End Outcome.

(** ** What a run shows *)

Section StateOf.
Context {Client : Type}.

(** A state whose diagnostics are [pre] followed by what [Configure]
    added. *)
Definition st_of (pre ds : diag_Diagnostics) (dsd rsd : option Client)
    (t : list Event) : State Client :=
  {| resp := {| Diagnostics := pre ++ ds; DataSourceData := dsd;
                ResourceData := rsd |};
     trace := t |}.

(** The diagnostics [Configure] added after those of the configuration
    read. *)
Definition added_diags (req : ConfigureRequest)
    (r0 : ConfigureResponse Client) (st : State Client) : diag_Diagnostics :=
  drop (length (read_diags req r0)) (Diagnostics (resp st)).

End StateOf.

(** The attribute path of the diagnostics of an attribute. *)
Definition field_path (f : Field) : path_Path := path_Root (field_name f).

(** The diagnostics of a collection that are at path [p]. *)
Definition diags_at (p : path_Path) (diags : diag_Diagnostics)
  : diag_Diagnostics :=
  filter (λ d, AttributePath d = Some p) diags.

(** The configurations handed to [sna.NewClient], in order. *)
Definition NewClient_calls (t : list Event) : list (string * string * string) :=
  omap (λ e, match e with
             | EvNewClient h u p => Some (h, u, p)
             | _ => None
             end) t.

(** The variables read with [os.Getenv], in order. *)
Definition Getenv_calls (t : list Event) : list string :=
  omap (λ e, match e with EvGetenv key => Some key | _ => None end) t.

(** Whether the trace ends with the record of line 197, which
    [Configure] writes only when it runs to its end. *)
Definition configured (t : list Event) : bool :=
  match last t with
  | Some (EvLog LevelInfo _ "Configured Secure Network Analytics client" _) =>
      true
  | _ => false
  end.

(** The component of a client configuration for an attribute. *)
Definition config_field (f : Field) (c : string * string * string) : string :=
  match f with
  | FHost => c.1.1
  | FUsername => c.1.2
  | FPassword => c.2
  end.

(** ** The five ways through [Configure] *)

Section Paths.
Context {Client : Type}.
Variables (ext : Extern Client) (ctx : tflog_Context)
  (req : ConfigureRequest) (r0 : ConfigureResponse Client).

#[local] Abbreviation config := (Config_Get req).1.
#[local] Abbreviation env := (environ ext).
#[local] Abbreviation pre := (read_diags req r0).
#[local] Abbreviation merged := (merged_value (Config_Get req).1 (environ ext)).

(** The state [Configure] leaves on each way through its body: the
    return of line 80, of line 114, of line 170, of line 189, and the end
    of the body. *)
Inductive Configure_path : State Client → Prop :=
  | path_read_error :
      HasError pre = true →
      Configure_path (failed r0 pre (start_trace ctx))
  | path_unknown :
      HasError pre = false →
      unknown_diags config ≠ [] →
      Configure_path (failed r0 (pre ++ unknown_diags config) (start_trace ctx))
  | path_missing :
      HasError pre = false →
      unknown_diags config = [] →
      missing_diags config env ≠ [] →
      Configure_path
        (failed r0 (pre ++ missing_diags config env)
           (start_trace ctx ++ getenv_trace))
  | path_construction client text :
      HasError pre = false →
      unknown_diags config = [] →
      missing_diags config env = [] →
      sna_NewClient ext (merged FHost) (merged FUsername) (merged FPassword)
        = (client, Some text) →
      Configure_path
        (failed r0 (pre ++ [construction_diag text])
           (client_trace ctx (merged FHost) (merged FUsername)
              (merged FPassword)))
  | path_success client :
      HasError pre = false →
      unknown_diags config = [] →
      missing_diags config env = [] →
      sna_NewClient ext (merged FHost) (merged FUsername) (merged FPassword)
        = (client, None) →
      Configure_path
        {| resp := {| Diagnostics := pre;
                      DataSourceData := Some client;
                      ResourceData := Some client |};
           trace :=
             client_trace ctx (merged FHost) (merged FUsername)
               (merged FPassword) ++
             [EvLog LevelInfo
                (client_ctx ctx (merged FHost) (merged FUsername)
                   (merged FPassword))
                "Configured Secure Network Analytics client"
                [("success", "true")]] |}.

End Paths.

(** ** Example inputs *)

(** A client that remembers the configuration it was built from. *)
Definition example_Client : Type := string * string * string.

Definition accepting_NewClient (host username password : string)
  : example_Client * option string :=
  ((host, username, password), None).

Definition refusing_NewClient (host username password : string)
  : example_Client * option string :=
  ((host, username, password), Some "connection refused").

(** The logging context without fields. *)
Definition background : tflog_Context :=
  {| log_fields := ∅; log_masked := [] |}.

(** The zero value of [provider.ConfigureResponse]. *)
Definition fresh_response : ConfigureResponse example_Client :=
  {| Diagnostics := []; DataSourceData := None; ResourceData := None |}.

(** A request whose configuration decodes without diagnostics. *)
Definition request_of (config : snaProviderModel) : ConfigureRequest :=
  {| Config_Get := (config, []) |}.

(** The host is configured; user name and password are in the
    environment. *)
Definition host_only_config : snaProviderModel :=
  {| Host := StringValue "http://x"; Username := StringNull;
     Password := StringNull |}.

Definition credentials_environ : gmap string string :=
  {[ "SNA_USERNAME" := "u"; "SNA_PASSWORD" := "p" ]}.

Definition credentials_extern : Extern example_Client :=
  {| environ := credentials_environ; sna_NewClient := accepting_NewClient |}.

Definition refusing_extern : Extern example_Client :=
  {| environ := credentials_environ; sna_NewClient := refusing_NewClient |}.

(** The same three variables, one more variable, and another client
    library. *)
Definition other_extern : Extern example_Client :=
  {| environ := <[ "HOME" := "/root" ]> credentials_environ;
     sna_NewClient := refusing_NewClient |}.

(** Nothing is configured and the environment is empty. *)
Definition null_config : snaProviderModel :=
  {| Host := StringNull; Username := StringNull; Password := StringNull |}.

Definition empty_extern : Extern example_Client :=
  {| environ := ∅; sna_NewClient := accepting_NewClient |}.

(** The host is not known yet. *)
Definition unknown_host_config : snaProviderModel :=
  {| Host := StringUnknown; Username := StringValue "u";
     Password := StringValue "p" |}.

(** The host is configured as the empty string while [SNA_HOST] is set. *)
Definition empty_host_config : snaProviderModel :=
  {| Host := StringValue ""; Username := StringValue "u";
     Password := StringValue "p" |}.

Definition host_extern : Extern example_Client :=
  {| environ := {[ "SNA_HOST" := "http://x" ]};
     sna_NewClient := accepting_NewClient |}.

(** ** The other methods of the provider *)

(** [snaProvider] is the provider implementation. *)
Record snaProvider : Type := {
  version : string;
}.

(** [schema.StringAttribute]; the fields the code does not set have
    Go's zero value. *)
Record schema_StringAttribute : Type := {
  Description : string;
  Required : bool;
  Optional : bool;
  Sensitive : bool;
}.

Record schema_Schema : Type := {
  Schema_Description : string;
  Attributes : gmap string schema_StringAttribute;
}.

Record SchemaResponse : Type := {
  resp_Schema : schema_Schema;
}.

(** [Schema] defines the provider-level schema for configuration data. *)
Definition Schema (p : snaProvider) (resp : SchemaResponse) : SchemaResponse :=
  {| resp_Schema :=
       {| Schema_Description := "Interact with Secure Network Analytics.";
          Attributes :=
            {[ "host" :=
                 {| Description := "URI for Secure Network Analytics API. May also be provided via SNA_HOST environment variable.";
                    Required := false;
                    Optional := true;
                    Sensitive := false |};
               "username" :=
                 {| Description := "Username for Secure Network Analytics API. May also be provided via SNA_USERNAME environment variable.";
                    Required := false;
                    Optional := true;
                    Sensitive := false |};
               "password" :=
                 {| Description := "Password for Secure Network Analytics API. May also be provided via SNA_PASSWORD environment variable.";
                    Required := false;
                    Optional := true;
                    Sensitive := true |} ]} |} |}.

#[global] Instance Field_eq_dec : EqDecision Field.
Proof. solve_decision. Defined.


(** Whether [t] occurs in [s]. *)
Definition mentions (s t : string) : bool :=
  match String.index 0 t s with
  | Some _ => true
  | None => false
  end.

(** All three attributes are configured. *)
Definition full_config : snaProviderModel :=
  {| Host := StringValue "http://x"; Username := StringValue "u";
     Password := StringValue "p" |}.

(** The environment of [ext] with one more variable set. *)
Definition with_variable {Client : Type} (ext : Extern Client)
    (key value : string) : Extern Client :=
  {| environ := <[key := value]> (environ ext);
     sna_NewClient := sna_NewClient ext |}.

(** The host is null; user name and password are configured. *)
Definition null_host_config : snaProviderModel :=
  {| Host := StringNull; Username := StringValue "u";
     Password := StringValue "p" |}.

(** A configuration read that reports an error. *)
Definition read_error : diag_Diagnostic :=
  NewErrorDiagnostic "Value Conversion Error" "An unexpected error was encountered trying to build a value.".

Definition failed_request : ConfigureRequest :=
  {| Config_Get := (unknown_host_config, [read_error]) |}.

(** ** Lemmas on the diagnostics collection *)

Lemma HasError_app (l l' : diag_Diagnostics) :
  HasError (l ++ l') = HasError l || HasError l'.
Proof. unfold HasError. apply existsb_app. Qed.

Lemma Contains_app (l l' : diag_Diagnostics) (d : diag_Diagnostic) :
  Contains (l ++ l') d = Contains l d || Contains l' d.
Proof. unfold Contains. apply existsb_app. Qed.

(** A collection without errors contains no error diagnostic. *)
Lemma Contains_no_error (l : diag_Diagnostics) (d : diag_Diagnostic) :
  HasError l = false → Severity d = SeverityError → Contains l d = false.
Proof.
  unfold Contains, HasError. intros Hl Hd.
  induction l as [|d' l IH]; [done|].
  cbn in Hl |- *. destruct (orb_false_elim _ _ Hl) as [Hd' Hl'].
  rewrite (IH Hl'), orb_false_r.
  apply bool_decide_eq_false. intros ->.
  apply bool_decide_eq_false in Hd'. done.
Qed.

Lemma Append_nil_r (l : diag_Diagnostics) : Append l [] = l.
Proof. done. Qed.

Lemma Append_one (l : diag_Diagnostics) (d : diag_Diagnostic) :
  Append l [d] = if Contains l d then l else l ++ [d].
Proof. done. Qed.

(** [Append] only adds at the end. *)
Lemma Append_prefix (l new : diag_Diagnostics) :
  ∃ added, Append l new = l ++ added.
Proof.
  revert l. induction new as [|d new IH]; intros l.
  - exists []. by rewrite app_nil_r.
  - cbn. destruct (Contains l d); [apply IH|].
    destruct (IH (l ++ [d])) as [added Hadded].
    exists (d :: added). by rewrite Hadded, <- app_assoc.
Qed.

Lemma Append_error_first (l : diag_Diagnostics) (d : diag_Diagnostic) :
  HasError l = false → Severity d = SeverityError → Append l [d] = l ++ [d].
Proof. intros Hl Hd. by rewrite Append_one, Contains_no_error. Qed.

Lemma Append_error_next (l ds : diag_Diagnostics) (d : diag_Diagnostic) :
  HasError l = false → Severity d = SeverityError → Contains ds d = false →
  Append (l ++ ds) [d] = l ++ (ds ++ [d]).
Proof.
  intros Hl Hd Hds.
  rewrite Append_one, Contains_app, Contains_no_error, Hds by done.
  cbn. by rewrite app_assoc.
Qed.

Lemma HasError_app_clean (l ds : diag_Diagnostics) :
  HasError l = false → HasError (l ++ ds) = HasError ds.
Proof. intros Hl. by rewrite HasError_app, Hl. Qed.

(** ** [Configure] step by step *)

Section Steps.
Context {Client : Type}.

Lemma run_bind {A B} (m : M Client A) (k : A → M Client B) ext st a st' R :
  m ext st = (Some a, st') → (k a ext st').2 = R → ((m ≫= k) ext st).2 = R.
Proof. intros H <-. unfold mbind, M_bind. by rewrite H. Qed.

Lemma run_bind_return {A B} (m : M Client A) (k : A → M Client B)
    ext st st' R :
  m ext st = (None, st') → st' = R → ((m ≫= k) ext st).2 = R.
Proof. intros H <-. unfold mbind, M_bind. by rewrite H. Qed.

Lemma run_last {A} (m : M Client A) ext st o st' R :
  m ext st = (o, st') → st' = R → (m ext st).2 = R.
Proof. by intros -> <-. Qed.

Lemma run_bind_assoc {A B C} (m : M Client A) (k1 : A → M Client B)
    (k2 : B → M Client C) ext st :
  ((m ≫= k1) ≫= k2) ext st = (m ≫= λ a, k1 a ≫= k2) ext st.
Proof. unfold mbind, M_bind. by destruct (m ext st) as [[a|] st']. Qed.

Lemma step_Info ctx msg fields (ext : Extern Client) pre ds dsd rsd t :
  tflog_Info ctx msg fields ext (st_of pre ds dsd rsd t)
  = (Some (), st_of pre ds dsd rsd (t ++ [EvLog LevelInfo ctx msg fields])).
Proof. done. Qed.

Lemma step_Debug ctx msg fields (ext : Extern Client) pre ds dsd rsd t :
  tflog_Debug ctx msg fields ext (st_of pre ds dsd rsd t)
  = (Some (), st_of pre ds dsd rsd (t ++ [EvLog LevelDebug ctx msg fields])).
Proof. done. Qed.

Lemma step_Getenv key (ext : Extern Client) pre ds dsd rsd t :
  os_Getenv key ext (st_of pre ds dsd rsd t)
  = (Some (default "" (environ ext !! key)),
     st_of pre ds dsd rsd (t ++ [EvGetenv key])).
Proof. done. Qed.

Lemma step_NewClient h u p (ext : Extern Client) pre ds dsd rsd t :
  call_NewClient h u p ext (st_of pre ds dsd rsd t)
  = (Some (sna_NewClient ext h u p),
     st_of pre ds dsd rsd (t ++ [EvNewClient h u p])).
Proof. done. Qed.

Lemma step_HasError_any (ext : Extern Client) pre ds dsd rsd t :
  resp_Diagnostics_HasError ext (st_of pre ds dsd rsd t)
  = (Some (HasError (pre ++ ds)), st_of pre ds dsd rsd t).
Proof. done. Qed.

Lemma step_HasError (ext : Extern Client) pre ds dsd rsd t :
  HasError pre = false →
  resp_Diagnostics_HasError ext (st_of pre ds dsd rsd t)
  = (Some (HasError ds), st_of pre ds dsd rsd t).
Proof.
  intros Hpre. by rewrite step_HasError_any, HasError_app_clean.
Qed.

Lemma step_return {A} (ext : Extern Client) st :
  @return_ Client A ext st = (None, st).
Proof. done. Qed.

Lemma step_skip (ext : Extern Client) st :
  (mret () : M Client ()) ext st = (Some (), st).
Proof. done. Qed.

(** Adding one error that [Configure] has not added yet. *)
Lemma step_Append_error d (ext : Extern Client) pre ds dsd rsd t :
  HasError pre = false →
  Severity d = SeverityError →
  Contains ds d = false →
  resp_Diagnostics_Append [d] ext (st_of pre ds dsd rsd t)
  = (Some (), st_of pre (ds ++ [d]) dsd rsd t).
Proof.
  intros Hpre Hd Hds. unfold resp_Diagnostics_Append, modify_resp, st_of.
  cbn [resp trace Diagnostics DataSourceData ResourceData].
  by rewrite Append_error_next.
Qed.

Lemma step_set_DataSourceData c (ext : Extern Client) pre ds dsd rsd t :
  set_DataSourceData c ext (st_of pre ds dsd rsd t)
  = (Some (), st_of pre ds (Some c) rsd t).
Proof. done. Qed.

Lemma step_set_ResourceData c (ext : Extern Client) pre ds dsd rsd t :
  set_ResourceData c ext (st_of pre ds dsd rsd t)
  = (Some (), st_of pre ds dsd (Some c) t).
Proof. done. Qed.

(** The first two statements bring the state to the form of [st_of]. *)
Lemma step_read ctx msg fields diags (ext : Extern Client) r0
    (k : M Client ()) :
  (tflog_Info ctx msg fields ≫= λ _, resp_Diagnostics_Append diags ≫= λ _, k)
    ext {| resp := r0; trace := [] |}
  = k ext (st_of (Append (Diagnostics r0) diags) [] (DataSourceData r0)
             (ResourceData r0) [EvLog LevelInfo ctx msg fields]).
Proof.
  unfold mbind, M_bind, tflog_Info, emit, resp_Diagnostics_Append,
    modify_resp, st_of.
  cbn. by rewrite app_nil_r.
Qed.

End Steps.

(** The step lemma of a statement [m]; [Hpre] says that the diagnostics
    read hold no error. *)
Ltac step_lemma Hpre m :=
  lazymatch m with
  | tflog_Info _ _ _ => apply step_Info
  | tflog_Debug _ _ _ => apply step_Debug
  | os_Getenv _ => apply step_Getenv
  | call_NewClient _ _ _ => apply step_NewClient
  | resp_Diagnostics_HasError => apply (step_HasError _ _ _ _ _ _ Hpre)
  | mret _ => apply step_skip
  | return_ => apply step_return
  | set_DataSourceData _ => apply step_set_DataSourceData
  | set_ResourceData _ => apply step_set_ResourceData
  | resp_Diagnostics_Append [_] =>
      apply (step_Append_error _ _ _ _ _ _ _ Hpre);
      [reflexivity | vm_compute; reflexivity]
  end.

(** Evaluate [HasError] on the diagnostics added so far. *)
Ltac eval_HasError :=
  try match goal with
      | |- context [HasError ?l] =>
          let b := eval vm_compute in (HasError l) in
          change (HasError l) with b; cbv iota
      end.

(** Run the first statement of the program in the goal. *)
Ltac step Hpre :=
  lazymatch goal with
  | |- (mbind _ (mbind _ _) _ _).2 = _ => rewrite run_bind_assoc
  | |- (mbind _ return_ _ _).2 = _ =>
      eapply run_bind_return; [apply step_return|]
  | |- (mbind _ ?m _ _).2 = _ =>
      eapply run_bind; [step_lemma Hpre m | cbv beta; eval_HasError]
  | |- (?m _ _).2 = _ => eapply run_last; [step_lemma Hpre m|]
  end.

Section Refinement.
Context {Client : Type}.

(** [Configure] leaves the state [outcome] describes. *)
Lemma run_Configure_outcome (ext : Extern Client) ctx req
    (r0 : ConfigureResponse Client) :
  run_Configure ext ctx req r0 = outcome ext ctx req r0.
Proof.
  unfold run_Configure, outcome, read_diags.
  destruct req as [[config diags]]. cbn [Config_Get fst snd].
  destruct config as [h u p]. unfold Configure.
  cbv beta iota zeta delta [Config_Get resp_Diagnostics_AddAttributeError].
  change (NewAttributeErrorDiagnostic (path_Root "host")
            "Unknown Secure Network Analytics API Host" _)
    with (unknown_diag FHost).
  change (NewAttributeErrorDiagnostic (path_Root "username")
            "Unknown Secure Network Analytics API Username" _)
    with (unknown_diag FUsername).
  change (NewAttributeErrorDiagnostic (path_Root "password")
            "Unknown Secure Network Analytics API Password" _)
    with (unknown_diag FPassword).
  change (NewAttributeErrorDiagnostic (path_Root "host")
            "Missing Secure Network Analytics API Host" _)
    with (missing_diag FHost).
  change (NewAttributeErrorDiagnostic (path_Root "username")
            "Missing Secure Network Analytics API Username" _)
    with (missing_diag FUsername).
  change (NewAttributeErrorDiagnostic (path_Root "password")
            "Missing Secure Network Analytics API Password" _)
    with (missing_diag FPassword).
  rewrite step_read.
  set (pre := Append (Diagnostics r0) diags).

  destruct (HasError pre) eqn:Hpre.
  - eapply run_bind; [apply step_HasError_any|].
    rewrite app_nil_r, Hpre. cbv beta iota delta [when_].
    step Hpre. unfold failed, st_of. by rewrite app_nil_r.
  - step Hpre.
    destruct h, u, p.
    all: cbv beta iota delta [when_ IsUnknown IsNull ValueString negb
                     Host Username Password].
    all: repeat step Hpre.
    all: try reflexivity.
    all: match goal with |- ?L = _ => remember L as lhs eqn:E end;
      cbn; subst lhs.
    all: repeat match goal with
           | |- context [String.eqb ?x ""] => destruct (String.eqb x "") eqn:?
           end.
    all: repeat step Hpre.
    all: try reflexivity.
    all: destruct (sna_NewClient ext _ _ _) as [c [e|]].
    all: try change (resp_Diagnostics_AddError _ _)
           with (resp_Diagnostics_Append (Client:=Client) [construction_diag e]).
    all: repeat step Hpre.
    all: try reflexivity.
    all: unfold st_of; rewrite app_nil_r; reflexivity.
Qed.
End Refinement.
(** ** The diagnostics of the two validations *)

Lemma unknown_diags_nil config :
  unknown_diags config = [] ↔ ∀ f, IsUnknown (field_value config f) = false.
Proof.
  unfold unknown_diags. cbn. split.
  - intros H f.
    destruct (IsUnknown (Host config)) eqn:Hh,
      (IsUnknown (Username config)) eqn:Hu,
      (IsUnknown (Password config)) eqn:Hp; try discriminate H.
    by destruct f.
  - intros H.
    generalize (H FHost), (H FUsername), (H FPassword).
    cbn. by intros -> -> ->.
Qed.

Lemma missing_diags_nil config env :
  missing_diags config env = [] ↔ ∀ f, merged_value config env f ≠ "".
Proof.
  unfold missing_diags. cbn. split.
  - intros H f.
    destruct (String.eqb_spec (merged_value config env FHost) ""),
      (String.eqb_spec (merged_value config env FUsername) ""),
      (String.eqb_spec (merged_value config env FPassword) "");
      try discriminate H.
    by destruct f.
  - intros H.
    generalize (H FHost), (H FUsername), (H FPassword).
    intros Hh%String.eqb_neq Hu%String.eqb_neq Hp%String.eqb_neq.
    by rewrite Hh, Hu, Hp.
Qed.

Lemma diags_at_unknown_diags config f :
  diags_at (field_path f) (unknown_diags config)
  = if IsUnknown (field_value config f) then [unknown_diag f] else [].
Proof.
  unfold unknown_diags. destruct f; cbn [mbind list_bind all_fields field_value].
  all: destruct (IsUnknown (Host config)), (IsUnknown (Username config)),
    (IsUnknown (Password config)); vm_compute; reflexivity.
Qed.

Lemma diags_at_missing_diags config env f :
  diags_at (field_path f) (missing_diags config env)
  = if String.eqb (merged_value config env f) "" then [missing_diag f] else [].
Proof.
  unfold missing_diags. cbn [mbind list_bind all_fields].
  destruct f.
  all: destruct (merged_value config env FHost =? "")%string,
    (merged_value config env FUsername =? "")%string,
    (merged_value config env FPassword =? "")%string; vm_compute; reflexivity.
Qed.

Lemma elem_of_unknown_diags config d :
  d ∈ unknown_diags config
  ↔ ∃ f, d = unknown_diag f ∧ IsUnknown (field_value config f) = true.
Proof.
  unfold unknown_diags. rewrite list_elem_of_bind. split.
  - intros (f & Hd & _). exists f.
    destruct (IsUnknown (field_value config f)); [|by apply elem_of_nil in Hd].
    apply list_elem_of_singleton in Hd. done.
  - intros (f & -> & Hf). exists f. rewrite Hf. split; [set_solver|].
    destruct f; set_solver.
Qed.

Lemma elem_of_missing_diags config env d :
  d ∈ missing_diags config env
  ↔ ∃ f, d = missing_diag f ∧ merged_value config env f = "".
Proof.
  unfold missing_diags. rewrite list_elem_of_bind. split.
  - intros (f & Hd & _). exists f.
    destruct (String.eqb_spec (merged_value config env f) "");
      [|by apply elem_of_nil in Hd].
    apply list_elem_of_singleton in Hd. done.
  - intros (f & -> & Hf). exists f. rewrite Hf. split; [set_solver|].
    destruct f; set_solver.
Qed.

Lemma Forall_error_unknown_diags config :
  Forall (λ d, Severity d = SeverityError) (unknown_diags config).
Proof.
  apply Forall_forall. intros d (f & -> & _)%elem_of_unknown_diags.
  by destruct f.
Qed.

Lemma Forall_error_missing_diags config env :
  Forall (λ d, Severity d = SeverityError) (missing_diags config env).
Proof.
  apply Forall_forall. intros d (f & -> & _)%elem_of_missing_diags.
  by destruct f.
Qed.

(** A non-empty list of errors has an error. *)
Lemma HasError_errors (ds : diag_Diagnostics) :
  Forall (λ d, Severity d = SeverityError) ds → ds ≠ [] → HasError ds = true.
Proof.
  intros Hall Hne. destruct ds as [|d ds]; [done|].
  apply Forall_cons in Hall as [Hd _]. cbn. by rewrite Hd.
Qed.

(** ** The ways through [Configure], as a case rule *)

Lemma Configure_cases {Client : Type} (ext : Extern Client) ctx req
    (r0 : ConfigureResponse Client) :
  Configure_path ext ctx req r0 (run_Configure ext ctx req r0).
Proof.
  rewrite run_Configure_outcome. unfold outcome.
  destruct (HasError (read_diags req r0)) eqn:Hpre; [by constructor|].
  destruct (unknown_diags (Config_Get req).1) eqn:Hu;
    [|rewrite <- Hu; apply path_unknown; [done|by rewrite Hu]].
  destruct (missing_diags (Config_Get req).1 (environ ext)) eqn:Hm;
    [|rewrite <- Hm; apply path_missing; [done|done|by rewrite Hm]].
  destruct (sna_NewClient ext _ _ _) as [c [e|]] eqn:Hc.
  - by eapply path_construction.
  - by eapply path_success.
Qed.


Lemma missing_diag_inj f g : missing_diag f = missing_diag g → f = g.
Proof. destruct f, g; (done || discriminate). Qed.


Lemma missing_diag_error f : Severity (missing_diag f) = SeverityError.
Proof. by destruct f. Qed.

Lemma unknown_diag_path f : AttributePath (unknown_diag f) = Some (field_path f).
Proof. by destruct f. Qed.

Lemma missing_diag_path f : AttributePath (missing_diag f) = Some (field_path f).
Proof. by destruct f. Qed.

Lemma unknown_missing_diag f g : unknown_diag f ≠ missing_diag g.
Proof. destruct f, g; discriminate. Qed.

(** A collection without errors holds no error diagnostic. *)
Lemma not_elem_of_no_error (l : diag_Diagnostics) d :
  HasError l = false → Severity d = SeverityError → d ∉ l.
Proof.
  intros Hl Hd Hin. unfold HasError in Hl.
  assert (existsb (λ d, bool_decide (Severity d = SeverityError)) l = true)
    as Ht; [|congruence].
  apply existsb_exists. exists d. split; [by apply list_elem_of_In|].
  by apply bool_decide_eq_true.
Qed.

Lemma HasError_false_Forall (l : diag_Diagnostics) :
  HasError l = false ↔ Forall (λ d, Severity d ≠ SeverityError) l.
Proof.
  unfold HasError. induction l as [|d l IH]; cbn; [by split|].
  rewrite orb_false_iff, Forall_cons, bool_decide_eq_false, IH. done.
Qed.

Section TraceFacts.
Context {Client : Type}.
Variables (ctx : tflog_Context) (h u p : string).

Lemma NewClient_calls_start : NewClient_calls (start_trace ctx) = [].
Proof. done. Qed.

Lemma NewClient_calls_getenv :
  NewClient_calls (start_trace ctx ++ getenv_trace) = [].
Proof. done. Qed.

Lemma NewClient_calls_client :
  NewClient_calls (client_trace ctx h u p) = [(h, u, p)].
Proof. done. Qed.

Lemma NewClient_calls_configured ctx' msg fields :
  NewClient_calls (client_trace ctx h u p ++ [EvLog LevelInfo ctx' msg fields])
  = [(h, u, p)].
Proof. done. Qed.

Lemma Getenv_calls_start : Getenv_calls (start_trace ctx) = [].
Proof. done. Qed.

Lemma Getenv_calls_getenv :
  Getenv_calls (start_trace ctx ++ getenv_trace)
  = ["SNA_HOST"; "SNA_USERNAME"; "SNA_PASSWORD"].
Proof. done. Qed.

Lemma Getenv_calls_client :
  Getenv_calls (client_trace ctx h u p)
  = ["SNA_HOST"; "SNA_USERNAME"; "SNA_PASSWORD"].
Proof. done. Qed.

Lemma Getenv_calls_configured ctx' msg fields :
  Getenv_calls (client_trace ctx h u p ++ [EvLog LevelInfo ctx' msg fields])
  = ["SNA_HOST"; "SNA_USERNAME"; "SNA_PASSWORD"].
Proof. done. Qed.

Lemma added_diags_failed req (r0 : ConfigureResponse Client) ds t :
  added_diags req r0 (failed r0 (read_diags req r0 ++ ds) t) = ds.
Proof. unfold added_diags. cbn. apply drop_app_length. Qed.

Lemma added_diags_read req (r0 : ConfigureResponse Client) dsd rsd t :
  added_diags req r0
    {| resp := {| Diagnostics := read_diags req r0; DataSourceData := dsd;
                  ResourceData := rsd |};
       trace := t |} = [].
Proof. unfold added_diags. cbn. apply drop_all. Qed.

Lemma added_diags_failed_read req (r0 : ConfigureResponse Client) t :
  added_diags req r0 (failed r0 (read_diags req r0) t) = [].
Proof. apply added_diags_read. Qed.

End TraceFacts.

Section Claims.
Context {Client : Type}.

(** C1. Resolution is all-or-nothing. Started on a response that holds
    no error, [Configure] ends in exactly one of two ways. Either the
    diagnostics hold no error, nothing was added to them, [sna.NewClient]
    was called once, with the three merged values, returned a client
    and no error, and both client slots hold that client. Or the
    diagnostics hold an error that [Configure] appended, both slots are
    as they were, and [sna.NewClient] was not called or was called once
    with the three merged values and returned an error. Every call of
    [sna.NewClient] receives the three merged values, none of them
    empty. *)
Theorem Configure_all_or_nothing (ext : Extern Client) ctx req
    (r0 : ConfigureResponse Client) :
  HasError (Diagnostics r0) = false →
  let merged := merged_value (Config_Get req).1 (environ ext) in
  let resolved := (merged FHost, merged FUsername, merged FPassword) in
  let st := run_Configure ext ctx req r0 in
  (∀ c, c ∈ NewClient_calls (trace st) →
        c = resolved ∧ c.1.1 ≠ "" ∧ c.1.2 ≠ "" ∧ c.2 ≠ "") ∧
  ((HasError (Diagnostics (resp st)) = false ∧
    added_diags req r0 st = [] ∧
    NewClient_calls (trace st) = [resolved] ∧
    ∃ client,
      sna_NewClient ext (merged FHost) (merged FUsername) (merged FPassword)
      = (client, None) ∧
      DataSourceData (resp st) = Some client ∧
      ResourceData (resp st) = Some client)
   ∨
   (HasError (Diagnostics (resp st)) = true ∧
    DataSourceData (resp st) = DataSourceData r0 ∧
    ResourceData (resp st) = ResourceData r0 ∧
    (∃ added, Diagnostics (resp st) = Diagnostics r0 ++ added ∧
              HasError added = true) ∧
    (NewClient_calls (trace st) = [] ∨
     (NewClient_calls (trace st) = [resolved] ∧
      ∃ client text,
        sna_NewClient ext (merged FHost) (merged FUsername) (merged FPassword)
        = (client, Some text))))).
Proof.
  intros Hr0 merged resolved st. subst merged resolved st.
  destruct (Append_prefix (Diagnostics r0) (Config_Get req).2)
    as (fwd & Hfwd).
  fold (read_diags req r0) in Hfwd.
  assert (∀ ds, HasError (read_diags req r0) = false →
                Forall (λ d, Severity d = SeverityError) ds → ds ≠ [] →
                HasError (read_diags req r0 ++ ds) = true ∧
                ∃ added, read_diags req r0 ++ ds = Diagnostics r0 ++ added ∧
                         HasError added = true) as Hadded.
  { intros ds Hpre Herr Hne.
    pose proof (HasError_errors ds Herr Hne) as Hds.
    split; [by rewrite HasError_app_clean|].
    exists (fwd ++ ds). rewrite Hfwd, <- app_assoc. split; [done|].
    by rewrite HasError_app, Hds, orb_true_r. }
  destruct (Configure_cases ext ctx req r0)
    as [Hpre|Hpre Hu|Hpre Hu Hm|c e Hpre Hu Hm Hc|c Hpre Hu Hm Hc].
  all: rewrite ?added_diags_failed, ?added_diags_read,
         ?added_diags_failed_read.
  all: unfold failed; cbn [trace resp Diagnostics DataSourceData ResourceData].
  - split; [intros c Hc; by apply elem_of_nil in Hc|]. right.
    split; [done|]. split; [done|]. split; [done|]. split; [|by left].
    exists fwd. split; [done|].
    rewrite Hfwd, HasError_app, Hr0 in Hpre. done.
  - split; [intros c Hc; by apply elem_of_nil in Hc|]. right.
    destruct (Hadded (unknown_diags (Config_Get req).1) Hpre
                (Forall_error_unknown_diags _) Hu) as (Herr & Hex).
    split; [done|]. split; [done|]. split; [done|]. split; [done|by left].
  - split; [intros c Hc; by apply elem_of_nil in Hc|]. right.
    destruct (Hadded (missing_diags (Config_Get req).1 (environ ext)) Hpre
                (Forall_error_missing_diags _ _) Hm) as (Herr & Hex).
    split; [done|]. split; [done|]. split; [done|]. split; [done|by left].
  - pose proof (proj1 (missing_diags_nil _ _) Hm) as Hfull.
    rewrite NewClient_calls_client. split.
    { intros c' ->%list_elem_of_singleton. cbn. by repeat split. }
    right.
    destruct (Hadded [construction_diag e] Hpre) as (Herr & Hex);
      [by repeat constructor|done|].
    split; [done|]. split; [done|]. split; [done|]. split; [done|].
    right. split; [done|]. by exists c, e.
  - pose proof (proj1 (missing_diags_nil _ _) Hm) as Hfull.
    rewrite NewClient_calls_configured. split.
    { intros c' ->%list_elem_of_singleton. cbn. by repeat split. }
    left. split; [done|]. split; [done|]. split; [done|]. by exists c.
Qed.

(** C9. Whenever [Configure] ends without an error in the diagnostics,
    [resp.DataSourceData] and [resp.ResourceData] hold the same client,
    the one [sna.NewClient] returned for the merged values. *)
Theorem Configure_shares_client (ext : Extern Client) ctx req
    (r0 : ConfigureResponse Client) :
  let config := (Config_Get req).1 in
  let st := run_Configure ext ctx req r0 in
  let client :=
    (sna_NewClient ext (merged_value config (environ ext) FHost)
       (merged_value config (environ ext) FUsername)
       (merged_value config (environ ext) FPassword)).1 in
  HasError (Diagnostics (resp st)) = false →
  DataSourceData (resp st) = Some client ∧
  ResourceData (resp st) = Some client.
Proof.
  intros config st client. subst config st client.
  destruct (Configure_cases ext ctx req r0)
    as [Hpre|Hpre Hu|Hpre Hu Hm|c e Hpre Hu Hm Hc|c Hpre Hu Hm Hc].
  all: unfold failed; cbn [trace resp Diagnostics DataSourceData ResourceData].
  all: rewrite ?HasError_app_clean by done.
  - congruence.
  - rewrite HasError_errors; [done|apply Forall_error_unknown_diags|done].
  - rewrite HasError_errors; [done|apply Forall_error_missing_diags|done].
  - done.
  - by rewrite Hc.
Qed.

(** C4. The gate on unknown values. When the configuration is read
    without error and some attribute is unknown, [Configure] adds, for
    each unknown attribute, exactly one diagnostic at its path, the
    unknown-value error of that attribute, and nothing else; it returns
    before reading any environment variable, adds no missing-value
    error, does not call [sna.NewClient] and sets no client. *)
Theorem Configure_unknown_gate (ext : Extern Client) ctx req
    (r0 : ConfigureResponse Client) :
  HasError (read_diags req r0) = false →
  (∃ f, IsUnknown (field_value (Config_Get req).1 f) = true) →
  let config := (Config_Get req).1 in
  let st := run_Configure ext ctx req r0 in
  let added := added_diags req r0 st in
  Diagnostics (resp st) = read_diags req r0 ++ added ∧
  (∀ f, diags_at (field_path f) added
        = if IsUnknown (field_value config f) then [unknown_diag f] else []) ∧
  (∀ d, d ∈ added →
        ∃ f, d = unknown_diag f ∧ IsUnknown (field_value config f) = true) ∧
  (∀ f, missing_diag f ∉ Diagnostics (resp st)) ∧
  Getenv_calls (trace st) = [] ∧
  NewClient_calls (trace st) = [] ∧
  DataSourceData (resp st) = DataSourceData r0 ∧
  ResourceData (resp st) = ResourceData r0.
Proof.
  intros Hread [f Hf] config st added. subst config st added.
  assert (unknown_diags (Config_Get req).1 ≠ []) as Hne.
  { intros Hnil. rewrite unknown_diags_nil in Hnil.
    specialize (Hnil f). congruence. }
  destruct (Configure_cases ext ctx req r0)
    as [Hpre|Hpre Hu|Hpre Hu Hm|c e Hpre Hu Hm Hc|c Hpre Hu Hm Hc];
    try congruence.
  rewrite added_diags_failed.
  unfold failed; cbn [trace resp Diagnostics DataSourceData ResourceData].
  split; [done|]. split; [apply diags_at_unknown_diags|].
  split; [intros d; apply elem_of_unknown_diags|].
  split; [|done].
  intros g [Hin|Hin]%elem_of_app.
  - by apply (not_elem_of_no_error _ _ Hpre (missing_diag_error g)).
  - apply elem_of_unknown_diags in Hin as (f' & Heq & _).
    symmetry in Heq. by apply unknown_missing_diag in Heq.
Qed.


(** The merged value of a null attribute is the variable's value. *)
Lemma merged_value_null config (env : gmap string string) f :
  field_value config f = StringNull →
  merged_value config env f = default "" (env !! field_env f).
Proof. unfold merged_value. by intros ->. Qed.

Lemma merged_value_known config (env : gmap string string) f v :
  field_value config f = StringValue v → merged_value config env f = v.
Proof. unfold merged_value. by intros ->. Qed.

(** C5. The gate on missing values. When the configuration is read
    without error and no attribute is unknown, the diagnostics added at
    an attribute's path are exactly one missing-value error if its
    merged value is empty and none otherwise; if some merged value is
    empty, only missing-value errors are added, [sna.NewClient] is not
    called and no client is set. In particular, with all three
    attributes null and their variables unset or empty, the three
    missing-value errors are added and no client is set. *)
Theorem Configure_missing_gate (ext : Extern Client) ctx req
    (r0 : ConfigureResponse Client) :
  HasError (read_diags req r0) = false →
  (∀ f, IsUnknown (field_value (Config_Get req).1 f) = false) →
  let config := (Config_Get req).1 in
  let merged := merged_value config (environ ext) in
  let st := run_Configure ext ctx req r0 in
  let added := added_diags req r0 st in
  Diagnostics (resp st) = read_diags req r0 ++ added ∧
  (∀ f, diags_at (field_path f) added
        = if String.eqb (merged f) "" then [missing_diag f] else []) ∧
  ((∃ f, merged f = "") →
     (∀ d, d ∈ added → ∃ f, d = missing_diag f ∧ merged f = "") ∧
     HasError (Diagnostics (resp st)) = true ∧
     NewClient_calls (trace st) = [] ∧
     DataSourceData (resp st) = DataSourceData r0 ∧
     ResourceData (resp st) = ResourceData r0) ∧
  ((∀ f, field_value config f = StringNull) →
   (∀ f, environ ext !! field_env f = None ∨
         environ ext !! field_env f = Some "") →
     added = [missing_diag FHost; missing_diag FUsername;
              missing_diag FPassword] ∧
     NewClient_calls (trace st) = [] ∧
     DataSourceData (resp st) = DataSourceData r0 ∧
     ResourceData (resp st) = ResourceData r0).
Proof.
  intros Hread Hknown config merged st added. subst config merged st added.
  apply unknown_diags_nil in Hknown.
  destruct (Configure_cases ext ctx req r0)
    as [Hpre|Hpre Hu|Hpre Hu Hm|c e Hpre Hu Hm Hc|c Hpre Hu Hm Hc];
    try congruence.
  - rewrite added_diags_failed.
    unfold failed; cbn [trace resp Diagnostics DataSourceData ResourceData].
    split; [done|]. split; [apply diags_at_missing_diags|]. split.
    + intros _. split; [intros d; apply elem_of_missing_diags|].
      rewrite HasError_app_clean by done.
      split; [|done].
      apply HasError_errors; [apply Forall_error_missing_diags|done].
    + intros Hnull Henv. split; [|done].
      unfold missing_diags. cbn [mbind list_bind all_fields].
      rewrite !merged_value_null by done.
      destruct (Henv FHost) as [-> | ->], (Henv FUsername) as [-> | ->],
        (Henv FPassword) as [-> | ->]; reflexivity.
  - rewrite added_diags_failed.
    unfold failed; cbn [trace resp Diagnostics DataSourceData ResourceData].
    pose proof (proj1 (missing_diags_nil _ _) Hm) as Hfull.
    split; [done|]. split.
    { intros f. by rewrite (proj2 (String.eqb_neq _ _) (Hfull f)). }
    split; [intros [f Hf]; by apply Hfull in Hf|].
    intros Hnull Henv. exfalso. apply (Hfull FHost).
    rewrite merged_value_null by done. by destruct (Henv FHost) as [-> | ->].
  - rewrite added_diags_read.
    cbn [trace resp Diagnostics DataSourceData ResourceData].
    pose proof (proj1 (missing_diags_nil _ _) Hm) as Hfull.
    split; [by rewrite app_nil_r|]. split.
    { intros f. by rewrite (proj2 (String.eqb_neq _ _) (Hfull f)). }
    split; [intros [f Hf]; by apply Hfull in Hf|].
    intros Hnull Henv. exfalso. apply (Hfull FHost).
    rewrite merged_value_null by done. by destruct (Henv FHost) as [-> | ->].
Qed.


(** C7. A failing client constructor. When the validations pass and
    [sna.NewClient] returns an error, [Configure] adds exactly one
    diagnostic, an error with the fixed summary and with the error text
    at the end of its detail; it has called [sna.NewClient] once,
    returns before its end and sets no client. *)
Theorem Configure_construction_failure (ext : Extern Client) ctx req
    (r0 : ConfigureResponse Client) client text :
  let config := (Config_Get req).1 in
  let merged := merged_value config (environ ext) in
  let st := run_Configure ext ctx req r0 in
  HasError (read_diags req r0) = false →
  (∀ f, IsUnknown (field_value config f) = false) →
  (∀ f, merged f ≠ "") →
  sna_NewClient ext (merged FHost) (merged FUsername) (merged FPassword)
    = (client, Some text) →
  added_diags req r0 st
    = [{| Severity := SeverityError;
          Summary := "Unable to Create Secure Network Analytics API Client";
          Detail := construction_prefix +:+ text;
          AttributePath := None |}] ∧
  Diagnostics (resp st) = read_diags req r0 ++ added_diags req r0 st ∧
  NewClient_calls (trace st) = [(merged FHost, merged FUsername, merged FPassword)] ∧
  configured (trace st) = false ∧
  DataSourceData (resp st) = DataSourceData r0 ∧
  ResourceData (resp st) = ResourceData r0.
Proof.
  intros config merged st Hread Hknown Hfull Hnew. subst config merged st.
  apply unknown_diags_nil in Hknown. apply missing_diags_nil in Hfull.
  destruct (Configure_cases ext ctx req r0)
    as [Hpre|Hpre Hu|Hpre Hu Hm|c e Hpre Hu Hm Hc|c Hpre Hu Hm Hc];
    try congruence.
  rewrite added_diags_failed.
  unfold failed; cbn [trace resp Diagnostics DataSourceData ResourceData].
  rewrite Hnew in Hc. injection Hc as <- <-. done.
Qed.


(** Past both gates' preconditions, the run is decided by the merged
    values. *)
Lemma Configure_validated (ext : Extern Client) ctx req
    (r0 : ConfigureResponse Client) :
  HasError (read_diags req r0) = false →
  (∀ f, IsUnknown (field_value (Config_Get req).1 f) = false) →
  let merged := merged_value (Config_Get req).1 (environ ext) in
  let st := run_Configure ext ctx req r0 in
  (∀ f, missing_diag f ∈ Diagnostics (resp st) ↔ merged f = "") ∧
  ((∃ f, merged f = "") →
     HasError (Diagnostics (resp st)) = true ∧
     NewClient_calls (trace st) = [] ∧
     DataSourceData (resp st) = DataSourceData r0 ∧
     ResourceData (resp st) = ResourceData r0) ∧
  ((∀ f, merged f ≠ "") →
     NewClient_calls (trace st)
     = [(merged FHost, merged FUsername, merged FPassword)]).
Proof.
  intros Hread Hknown merged st. subst merged st.
  apply unknown_diags_nil in Hknown.
  assert (∀ f, missing_diag f ∉ read_diags req r0) as Hpre_no.
  { intros f.
    by apply (not_elem_of_no_error _ _ Hread (missing_diag_error f)). }
  destruct (Configure_cases ext ctx req r0)
    as [Hpre|Hpre Hu|Hpre Hu Hm|c e Hpre Hu Hm Hc|c Hpre Hu Hm Hc];
    try congruence.
  all: unfold failed; cbn [trace resp Diagnostics DataSourceData ResourceData].
  all: try pose proof (proj1 (missing_diags_nil _ _) Hm) as Hfull.
  - split; [|split].
    + intros f. rewrite elem_of_app, elem_of_missing_diags. split.
      * intros [Hin|(g & ->%missing_diag_inj & Hg)]; [|done].
        by apply Hpre_no in Hin.
      * intros Hf. right. by exists f.
    + intros _. rewrite HasError_app_clean by done. split; [|done].
      apply HasError_errors; [apply Forall_error_missing_diags|done].
    + intros Hfull. by apply missing_diags_nil in Hfull.
  - split; [|split].
    + intros f. rewrite elem_of_app, list_elem_of_singleton. split.
      * intros [Hin|Heq]; [by apply Hpre_no in Hin|by destruct f].
      * intros Hf. by apply Hfull in Hf.
    + intros [f Hf]. by apply Hfull in Hf.
    + done.
  - split; [|split].
    + intros f. split; [intros Hin; by apply Hpre_no in Hin|].
      intros Hf. by apply Hfull in Hf.
    + intros [f Hf]. by apply Hfull in Hf.
    + done.
Qed.

Lemma merged_empty_or_full (merged : Field → string) :
  (∃ f, merged f = "") ∨ (∀ f, merged f ≠ "").
Proof.
  destruct (decide (merged FHost = "")); [left; by exists FHost|].
  destruct (decide (merged FUsername = "")); [left; by exists FUsername|].
  destruct (decide (merged FPassword = "")); [left; by exists FPassword|].
  right. by intros [].
Qed.

(** C2. The precedence merge, for each attribute, when the
    configuration is read without error and no attribute is unknown: a
    known value is the merged value, is what [sna.NewClient] receives,
    and is reported missing exactly when it is empty; for a null
    attribute with a non-empty environment variable the variable's
    value is the merged value; for a null attribute whose variable is
    unset or empty, [Configure] fails with the missing-value error of
    this attribute. When all merged values are non-empty,
    [sna.NewClient] is called with them. *)
Theorem Configure_precedence_merge (ext : Extern Client) ctx req
    (r0 : ConfigureResponse Client) (f : Field) :
  HasError (read_diags req r0) = false →
  (∀ g, IsUnknown (field_value (Config_Get req).1 g) = false) →
  let config := (Config_Get req).1 in
  let merged := merged_value config (environ ext) in
  let st := run_Configure ext ctx req r0 in
  (∀ v, field_value config f = StringValue v →
        merged f = v ∧
        (∀ c, c ∈ NewClient_calls (trace st) → config_field f c = v) ∧
        (missing_diag f ∈ Diagnostics (resp st) ↔ v = "")) ∧
  (∀ b, field_value config f = StringNull →
        environ ext !! field_env f = Some b → b ≠ "" →
        merged f = b ∧
        (∀ c, c ∈ NewClient_calls (trace st) → config_field f c = b) ∧
        missing_diag f ∉ Diagnostics (resp st)) ∧
  (field_value config f = StringNull →
   environ ext !! field_env f = None ∨ environ ext !! field_env f = Some "" →
     missing_diag f ∈ Diagnostics (resp st) ∧
     HasError (Diagnostics (resp st)) = true ∧
     NewClient_calls (trace st) = [] ∧
     DataSourceData (resp st) = DataSourceData r0 ∧
     ResourceData (resp st) = ResourceData r0) ∧
  ((∀ g, merged g ≠ "") →
     NewClient_calls (trace st)
     = [(merged FHost, merged FUsername, merged FPassword)]).
Proof.
  intros Hread Hknown config merged st.
  destruct (Configure_validated ext ctx req r0 Hread Hknown)
    as (Hmissing & Hfail & Hcall).
  fold config merged st in Hmissing, Hfail, Hcall.
  assert (∀ c, c ∈ NewClient_calls (trace st) → config_field f c = merged f)
    as Hargs.
  { intros c Hc.
    destruct (merged_empty_or_full merged) as [Hex|Hall].
    - destruct (Hfail Hex) as (_ & Hnone & _). rewrite Hnone in Hc.
      by apply elem_of_nil in Hc.
    - rewrite (Hcall Hall) in Hc.
      apply list_elem_of_singleton in Hc as ->. by destruct f. }
  split; [|split; [|split]].
  - intros v Hv. pose proof (merged_value_known config (environ ext) f v Hv) as Hm.
    fold merged in Hm. split; [done|]. split.
    + intros c Hc. rewrite <- Hm. by apply Hargs.
    + by rewrite Hmissing, Hm.
  - intros b Hnull Hb Hne.
    pose proof (merged_value_null config (environ ext) f Hnull) as Hm.
    fold merged in Hm. rewrite Hb in Hm. cbn in Hm.
    split; [done|]. split.
    + intros c Hc. rewrite <- Hm. by apply Hargs.
    + rewrite Hmissing, Hm. done.
  - intros Hnull Henv.
    pose proof (merged_value_null config (environ ext) f Hnull) as Hm.
    fold merged in Hm.
    assert (merged f = "") as He.
    { rewrite Hm. by destruct Henv as [-> | ->]. }
    split; [by apply Hmissing|]. apply Hfail. by exists f.
  - done.
Qed.

(** C3, as the code has it. When the configuration is read without
    error and no attribute is unknown, so that the merge of lines
    120-134 is reached, a known empty string is not treated as null:
    whatever the environment variable holds, the merged value is the
    empty string, and [Configure] fails with the missing-value error of
    this attribute without calling [sna.NewClient] or setting a
    client. *)
Theorem Configure_empty_value_is_missing (ext : Extern Client) ctx req
    (r0 : ConfigureResponse Client) (f : Field) :
  HasError (read_diags req r0) = false →
  (∀ g, IsUnknown (field_value (Config_Get req).1 g) = false) →
  field_value (Config_Get req).1 f = StringValue "" →
  let st := run_Configure ext ctx req r0 in
  merged_value (Config_Get req).1 (environ ext) f = "" ∧
  missing_diag f ∈ Diagnostics (resp st) ∧
  HasError (Diagnostics (resp st)) = true ∧
  NewClient_calls (trace st) = [] ∧
  DataSourceData (resp st) = DataSourceData r0 ∧
  ResourceData (resp st) = ResourceData r0.
Proof.
  intros Hread Hknown Hf st.
  destruct (Configure_validated ext ctx req r0 Hread Hknown)
    as (Hmissing & Hfail & _).
  pose proof (merged_value_known _ (environ ext) f "" Hf) as Hm.
  split; [done|]. split; [by apply Hmissing|].
  apply Hfail. by exists f.
Qed.

Lemma merged_value_agree config (env1 env2 : gmap string string) f :
  env1 !! field_env f = env2 !! field_env f →
  merged_value config env1 f = merged_value config env2 f.
Proof. unfold merged_value. by intros ->. Qed.

(** C8. Determinism. Two runs on the same request and response, in
    environments that agree on the three variables, hand the same
    configurations to [sna.NewClient]; they leave the same state
    whenever validation fails, and also whenever the two client
    libraries answer alike. *)
Theorem Configure_deterministic (ext1 ext2 : Extern Client) ctx req
    (r0 : ConfigureResponse Client) :
  (∀ f, environ ext1 !! field_env f = environ ext2 !! field_env f) →
  let st1 := run_Configure ext1 ctx req r0 in
  let st2 := run_Configure ext2 ctx req r0 in
  NewClient_calls (trace st1) = NewClient_calls (trace st2) ∧
  (NewClient_calls (trace st1) = [] → st1 = st2) ∧
  ((∀ h u p, sna_NewClient ext1 h u p = sna_NewClient ext2 h u p) →
     st1 = st2).
Proof.
  intros Henv st1 st2. subst st1 st2.
  rewrite !run_Configure_outcome. unfold outcome.
  unfold missing_diags. cbn [mbind list_bind all_fields].
  rewrite !(merged_value_agree _ (environ ext1) (environ ext2)) by done.
  destruct (HasError _); [done|].
  destruct (unknown_diags _); [|done].
  match goal with
  | |- context [match ?l with [] => _ | _ :: _ => _ end] => destruct l
  end; [|done].
  destruct (sna_NewClient ext1 _ _ _) as [c1 [e1|]] eqn:H1,
    (sna_NewClient ext2 _ _ _) as [c2 [e2|]] eqn:H2.
  all: split; [done|]; split; [done|].
  all: intros Hsame; rewrite Hsame, H2 in H1; by simplify_eq.
Qed.

(** C10. Every diagnostic [Configure] adds after those of the
    configuration read has severity error. So, when the read holds no
    error, the diagnostics hold an error exactly when [Configure] added
    a diagnostic, which is exactly when it returned before its end. *)
Theorem Configure_adds_only_errors (ext : Extern Client) ctx req
    (r0 : ConfigureResponse Client) :
  let st := run_Configure ext ctx req r0 in
  let added := added_diags req r0 st in
  Diagnostics (resp st) = read_diags req r0 ++ added ∧
  Forall (λ d, Severity d = SeverityError) added ∧
  (HasError (read_diags req r0) = false →
     (HasError (Diagnostics (resp st)) = true ↔ added ≠ []) ∧
     (configured (trace st) = false ↔ added ≠ [])).
Proof.
  intros st added. subst st added.
  destruct (Configure_cases ext ctx req r0)
    as [Hpre|Hpre Hu|Hpre Hu Hm|c e Hpre Hu Hm Hc|c Hpre Hu Hm Hc].
  all: rewrite ?added_diags_failed, ?added_diags_read,
         ?added_diags_failed_read.
  all: unfold failed; cbn [trace resp Diagnostics DataSourceData ResourceData].
  - rewrite app_nil_r. split; [done|]. split; [done|]. congruence.
  - split; [done|]. split; [apply Forall_error_unknown_diags|].
    intros _. rewrite HasError_app_clean by done.
    rewrite HasError_errors by (apply Forall_error_unknown_diags || done).
    done.
  - split; [done|]. split; [apply Forall_error_missing_diags|].
    intros _. rewrite HasError_app_clean by done.
    rewrite HasError_errors by (apply Forall_error_missing_diags || done).
    done.
  - split; [done|]. split; [by repeat constructor|].
    intros _. rewrite HasError_app_clean by done. done.
  - split; [by rewrite app_nil_r|]. split; [done|].
    intros _. rewrite Hpre. unfold configured. rewrite last_snoc. done.
Qed.

End Claims.

(** ** The claims on the example inputs *)

Lemma Configure_all_or_nothing_witness :
  HasError (Diagnostics fresh_response) = false ∧
  let merged := merged_value host_only_config (environ credentials_extern) in
  let resolved := (merged FHost, merged FUsername, merged FPassword) in
  let st :=
    run_Configure credentials_extern background (request_of host_only_config)
      fresh_response in
  (∀ c, c ∈ NewClient_calls (trace st) →
        c = resolved ∧ c.1.1 ≠ "" ∧ c.1.2 ≠ "" ∧ c.2 ≠ "") ∧
  ((HasError (Diagnostics (resp st)) = false ∧
    added_diags (request_of host_only_config) fresh_response st = [] ∧
    NewClient_calls (trace st) = [resolved] ∧
    ∃ client,
      sna_NewClient credentials_extern (merged FHost) (merged FUsername)
        (merged FPassword)
      = (client, None) ∧
      DataSourceData (resp st) = Some client ∧
      ResourceData (resp st) = Some client)
   ∨
   (HasError (Diagnostics (resp st)) = true ∧
    DataSourceData (resp st) = DataSourceData fresh_response ∧
    ResourceData (resp st) = ResourceData fresh_response ∧
    (∃ added, Diagnostics (resp st) = Diagnostics fresh_response ++ added ∧
              HasError added = true) ∧
    (NewClient_calls (trace st) = [] ∨
     (NewClient_calls (trace st) = [resolved] ∧
      ∃ client text,
        sna_NewClient credentials_extern (merged FHost) (merged FUsername)
          (merged FPassword)
        = (client, Some text))))).
Proof.
  split; [reflexivity|].
  apply (Configure_all_or_nothing credentials_extern background
           (request_of host_only_config) fresh_response).
  reflexivity.
Defined.

Lemma Configure_precedence_merge_witness :
  HasError (read_diags (request_of host_only_config) fresh_response) = false ∧
  (∀ g, IsUnknown (field_value host_only_config g) = false) ∧
  let st :=
    run_Configure credentials_extern background (request_of host_only_config)
      fresh_response in
  merged_value host_only_config credentials_environ FHost = "http://x" ∧
  merged_value host_only_config credentials_environ FUsername = "u" ∧
  NewClient_calls (trace st) = [("http://x", "u", "p")].
Proof.
  assert (HasError (read_diags (request_of host_only_config) fresh_response)
          = false) as Hread by reflexivity.
  assert (∀ g, IsUnknown (field_value host_only_config g) = false) as Hknown
    by (intros []; reflexivity).
  split; [exact Hread|]. split; [exact Hknown|].
  intros st.
  destruct (Configure_precedence_merge credentials_extern background
              (request_of host_only_config) fresh_response FHost Hread Hknown)
    as (Hvalue & _ & _ & Hcall).
  destruct (Configure_precedence_merge credentials_extern background
              (request_of host_only_config) fresh_response FUsername Hread
              Hknown)
    as (_ & Hnull & _ & _).
  split; [apply (Hvalue "http://x"); reflexivity|].
  split; [apply (Hnull "u"); [reflexivity|reflexivity|discriminate]|].
  apply Hcall. intros []; vm_compute; discriminate.
Defined.

(** C3 fails on the code: with the host configured as the empty string
    and [SNA_HOST] set to a non-empty value, the merged host is the
    empty string and not the variable's value; [Configure] reports the
    host missing and builds no client. *)
Lemma Configure_empty_value_counterexample :
  environ host_extern !! "SNA_HOST" = Some "http://x" ∧
  merged_value empty_host_config (environ host_extern) FHost = "" ∧
  merged_value empty_host_config (environ host_extern) FHost ≠ "http://x" ∧
  run_Configure host_extern background (request_of empty_host_config)
    fresh_response
  = {| resp := {| Diagnostics := [missing_diag FHost];
                  DataSourceData := None; ResourceData := None |};
       trace :=
         [EvLog LevelInfo background
            "Configuring Secure Network Analytics client" [];
          EvGetenv "SNA_HOST"; EvGetenv "SNA_USERNAME";
          EvGetenv "SNA_PASSWORD"] |}.
Proof.
  split; [vm_compute; reflexivity|]. split; [reflexivity|].
  split; [discriminate|]. vm_compute. reflexivity.
Qed.

Lemma Configure_empty_value_is_missing_witness :
  HasError (read_diags (request_of empty_host_config) fresh_response) = false ∧
  (∀ g, IsUnknown (field_value empty_host_config g) = false) ∧
  field_value empty_host_config FHost = StringValue "" ∧
  let st :=
    run_Configure host_extern background (request_of empty_host_config)
      fresh_response in
  merged_value empty_host_config (environ host_extern) FHost = "" ∧
  missing_diag FHost ∈ Diagnostics (resp st) ∧
  HasError (Diagnostics (resp st)) = true ∧
  NewClient_calls (trace st) = [] ∧
  DataSourceData (resp st) = DataSourceData fresh_response ∧
  ResourceData (resp st) = ResourceData fresh_response.
Proof.
  split; [reflexivity|]. split; [intros []; reflexivity|].
  split; [reflexivity|].
  apply (Configure_empty_value_is_missing host_extern background
           (request_of empty_host_config) fresh_response FHost).
  - reflexivity.
  - intros []; reflexivity.
  - reflexivity.
Defined.

Lemma Configure_unknown_gate_witness :
  HasError (read_diags (request_of unknown_host_config) fresh_response) = false ∧
  (∃ f, IsUnknown (field_value unknown_host_config f) = true) ∧
  let st :=
    run_Configure empty_extern background (request_of unknown_host_config)
      fresh_response in
  let added := added_diags (request_of unknown_host_config) fresh_response st in
  Diagnostics (resp st)
  = read_diags (request_of unknown_host_config) fresh_response ++ added ∧
  (∀ f, diags_at (field_path f) added
        = if IsUnknown (field_value unknown_host_config f)
          then [unknown_diag f] else []) ∧
  (∀ d, d ∈ added →
        ∃ f, d = unknown_diag f ∧
             IsUnknown (field_value unknown_host_config f) = true) ∧
  (∀ f, missing_diag f ∉ Diagnostics (resp st)) ∧
  Getenv_calls (trace st) = [] ∧
  NewClient_calls (trace st) = [] ∧
  DataSourceData (resp st) = DataSourceData fresh_response ∧
  ResourceData (resp st) = ResourceData fresh_response.
Proof.
  split; [reflexivity|]. split; [exists FHost; reflexivity|].
  apply (Configure_unknown_gate empty_extern background
           (request_of unknown_host_config) fresh_response).
  - reflexivity.
  - exists FHost. reflexivity.
Defined.

Lemma Configure_missing_gate_witness :
  HasError (read_diags (request_of null_config) fresh_response) = false ∧
  (∀ f, IsUnknown (field_value null_config f) = false) ∧
  (∀ f, field_value null_config f = StringNull) ∧
  (∀ f, environ empty_extern !! field_env f = None ∨
        environ empty_extern !! field_env f = Some "") ∧
  let st :=
    run_Configure empty_extern background (request_of null_config)
      fresh_response in
  added_diags (request_of null_config) fresh_response st
  = [missing_diag FHost; missing_diag FUsername; missing_diag FPassword] ∧
  NewClient_calls (trace st) = [] ∧
  DataSourceData (resp st) = DataSourceData fresh_response ∧
  ResourceData (resp st) = ResourceData fresh_response.
Proof.
  assert (HasError (read_diags (request_of null_config) fresh_response) = false)
    as Hread by reflexivity.
  assert (∀ f, IsUnknown (field_value null_config f) = false) as Hknown
    by (intros []; reflexivity).
  assert (∀ f, field_value null_config f = StringNull) as Hnull
    by (intros []; reflexivity).
  assert (∀ f, environ empty_extern !! field_env f = None ∨
               environ empty_extern !! field_env f = Some "") as Henv
    by (intros []; left; vm_compute; reflexivity).
  split; [exact Hread|]. split; [exact Hknown|]. split; [exact Hnull|].
  split; [exact Henv|].
  intros st.
  destruct (Configure_missing_gate empty_extern background
              (request_of null_config) fresh_response Hread Hknown)
    as (_ & _ & _ & Hall).
  exact (Hall Hnull Henv).
Defined.


Lemma Configure_construction_failure_witness :
  let st :=
    run_Configure refusing_extern background (request_of host_only_config)
      fresh_response in
  HasError (read_diags (request_of host_only_config) fresh_response) = false ∧
  (∀ f, IsUnknown (field_value host_only_config f) = false) ∧
  (∀ f, merged_value host_only_config (environ refusing_extern) f ≠ "") ∧
  sna_NewClient refusing_extern "http://x" "u" "p"
  = (("http://x", "u", "p"), Some "connection refused") ∧
  added_diags (request_of host_only_config) fresh_response st
  = [{| Severity := SeverityError;
        Summary := "Unable to Create Secure Network Analytics API Client";
        Detail := construction_prefix +:+ "connection refused";
        AttributePath := None |}] ∧
  NewClient_calls (trace st) = [("http://x", "u", "p")] ∧
  configured (trace st) = false ∧
  DataSourceData (resp st) = None ∧
  ResourceData (resp st) = None.
Proof.
  intros st.
  assert (HasError (read_diags (request_of host_only_config) fresh_response)
          = false) as Hread by reflexivity.
  assert (∀ f, IsUnknown (field_value host_only_config f) = false) as Hknown
    by (intros []; reflexivity).
  assert (∀ f, merged_value host_only_config (environ refusing_extern) f ≠ "")
    as Hfull by (intros []; vm_compute; discriminate).
  assert (sna_NewClient refusing_extern
            (merged_value host_only_config (environ refusing_extern) FHost)
            (merged_value host_only_config (environ refusing_extern) FUsername)
            (merged_value host_only_config (environ refusing_extern) FPassword)
          = (("http://x", "u", "p"), Some "connection refused")) as Hnew
    by (vm_compute; reflexivity).
  split; [exact Hread|]. split; [exact Hknown|]. split; [exact Hfull|].
  split; [reflexivity|].
  destruct (Configure_construction_failure refusing_extern background
              (request_of host_only_config) fresh_response
              ("http://x", "u", "p") "connection refused"
              Hread Hknown Hfull Hnew)
    as (Hadded & _ & Hcalls & Hend & Hds & Hrs).
  split; [exact Hadded|]. split; [exact Hcalls|]. split; [exact Hend|].
  split; [exact Hds|exact Hrs].
Defined.

Lemma Configure_deterministic_witness :
  (∀ f, environ credentials_extern !! field_env f
        = environ other_extern !! field_env f) ∧
  let st1 :=
    run_Configure credentials_extern background (request_of host_only_config)
      fresh_response in
  let st2 :=
    run_Configure other_extern background (request_of host_only_config)
      fresh_response in
  NewClient_calls (trace st1) = NewClient_calls (trace st2) ∧
  (NewClient_calls (trace st1) = [] → st1 = st2) ∧
  ((∀ h u p, sna_NewClient credentials_extern h u p
             = sna_NewClient other_extern h u p) →
     st1 = st2).
Proof.
  split; [intros []; vm_compute; reflexivity|].
  apply (Configure_deterministic credentials_extern other_extern background
           (request_of host_only_config) fresh_response).
  intros []; vm_compute; reflexivity.
Defined.

Lemma Configure_shares_client_witness :
  let st :=
    run_Configure credentials_extern background (request_of host_only_config)
      fresh_response in
  HasError (Diagnostics (resp st)) = false ∧
  DataSourceData (resp st) = Some ("http://x", "u", "p") ∧
  ResourceData (resp st) = Some ("http://x", "u", "p").
Proof.
  intros st.
  assert (HasError (Diagnostics (resp st)) = false) as Hok
    by (vm_compute; reflexivity).
  split; [exact Hok|].
  exact (Configure_shares_client credentials_extern background
           (request_of host_only_config) fresh_response Hok).
Defined.

Lemma Configure_adds_only_errors_witness :
  HasError (read_diags (request_of null_config) fresh_response) = false ∧
  let st :=
    run_Configure empty_extern background (request_of null_config)
      fresh_response in
  let added := added_diags (request_of null_config) fresh_response st in
  Diagnostics (resp st)
  = read_diags (request_of null_config) fresh_response ++ added ∧
  Forall (λ d, Severity d = SeverityError) added ∧
  (HasError (Diagnostics (resp st)) = true ↔ added ≠ []) ∧
  (configured (trace st) = false ↔ added ≠ []).
Proof.
  assert (HasError (read_diags (request_of null_config) fresh_response) = false)
    as Hread by reflexivity.
  split; [exact Hread|]. intros st added.
  destruct (Configure_adds_only_errors empty_extern background
              (request_of null_config) fresh_response)
    as (Hdiags & Herrors & Hgate).
  split; [exact Hdiags|]. split; [exact Herrors|]. exact (Hgate Hread).
Defined.

(** ** More on the diagnostics collection *)

Lemma Contains_elem_of (l : diag_Diagnostics) d : Contains l d = true ↔ d ∈ l.
Proof.
  unfold Contains. rewrite existsb_exists. split.
  - intros (d' & Hin & Heq). apply bool_decide_eq_true in Heq as ->.
    by apply list_elem_of_In.
  - intros Hin. exists d. split; [by apply list_elem_of_In|].
    by apply bool_decide_eq_true.
Qed.

Lemma elem_of_Append (l new : diag_Diagnostics) d :
  d ∈ Append l new ↔ d ∈ l ∨ d ∈ new.
Proof.
  revert l. induction new as [|d' new IH]; intros l; cbn.
  - rewrite elem_of_nil. tauto.
  - rewrite elem_of_cons. destruct (Contains l d') eqn:Hc.
    + apply Contains_elem_of in Hc. rewrite IH. split; [tauto|].
      intros [?|[->|?]]; tauto.
    + rewrite IH, elem_of_app, list_elem_of_singleton. tauto.
Qed.

Lemma NoDup_Append (l new : diag_Diagnostics) :
  NoDup l → NoDup (Append l new).
Proof.
  revert l. induction new as [|d new IH]; intros l Hl; cbn; [done|].
  destruct (Contains l d) eqn:Hc; [by apply IH|].
  apply IH. apply NoDup_app. split; [done|]. split; [|apply NoDup_singleton].
  intros x Hx ->%list_elem_of_singleton.
  apply Contains_elem_of in Hx. congruence.
Qed.

(** ** Further properties of [Configure] *)

Section More.
Context {Client : Type}.

(** X1. When the diagnostics hold an error once the configuration is
    read (line 79), [Configure] returns at once: it has written only its
    first log record, read no environment variable, called no client
    constructor and added nothing to the diagnostics, whatever the
    attributes are. *)
Theorem Configure_returns_on_read_error (ext : Extern Client) ctx req
    (r0 : ConfigureResponse Client) :
  HasError (read_diags req r0) = true →
  run_Configure ext ctx req r0
  = {| resp := {| Diagnostics := Append (Diagnostics r0) (Config_Get req).2;
                  DataSourceData := DataSourceData r0;
                  ResourceData := ResourceData r0 |};
       trace :=
         [EvLog LevelInfo ctx "Configuring Secure Network Analytics client"
            []] |}.
Proof.
  intros Hread.
  destruct (Configure_cases ext ctx req r0)
    as [Hpre|Hpre Hu|Hpre Hu Hm|c e Hpre Hu Hm Hc|c Hpre Hu Hm Hc];
    try congruence.
  reflexivity.
Qed.

(** X2. [Configure] only adds to the diagnostics: those the response
    held on entry stay at the front, in order, and every diagnostic of
    the configuration read is in the response at the end. *)
Theorem Configure_keeps_diagnostics (ext : Extern Client) ctx req
    (r0 : ConfigureResponse Client) :
  let st := run_Configure ext ctx req r0 in
  (∃ more, Diagnostics (resp st) = Diagnostics r0 ++ more) ∧
  (∀ d, d ∈ (Config_Get req).2 → d ∈ Diagnostics (resp st)).
Proof.
  intros st. subst st.
  destruct (Append_prefix (Diagnostics r0) (Config_Get req).2) as (fwd & Hfwd).
  assert (∀ d, d ∈ (Config_Get req).2 → d ∈ read_diags req r0) as Hin.
  { intros d Hd. apply elem_of_Append. by right. }
  fold (read_diags req r0) in Hfwd.
  destruct (Configure_cases ext ctx req r0)
    as [Hpre|Hpre Hu|Hpre Hu Hm|c e Hpre Hu Hm Hc|c Hpre Hu Hm Hc].
  all: unfold failed; cbn [trace resp Diagnostics DataSourceData ResourceData].
  all: split;
    [rewrite Hfwd, <- ?app_assoc; eauto
    |intros d Hd; rewrite ?elem_of_app; auto].
Qed.

(** X3. A collection without duplicates on entry is without duplicates
    at the end. *)
Theorem Configure_keeps_NoDup (ext : Extern Client) ctx req
    (r0 : ConfigureResponse Client) :
  NoDup (Diagnostics r0) →
  NoDup (Diagnostics (resp (run_Configure ext ctx req r0))).
Proof.
  intros Hr0.
  assert (NoDup (read_diags req r0)) as Hnd by by apply NoDup_Append.
  assert (∀ ds, HasError (read_diags req r0) = false →
                Forall (λ d, Severity d = SeverityError) ds → NoDup ds →
                NoDup (read_diags req r0 ++ ds)) as Happ.
  { intros ds Hpre Hds Hnds. apply NoDup_app. split; [done|]. split; [|done].
    intros d Hd Hd'. rewrite Forall_forall in Hds.
    by apply (not_elem_of_no_error _ _ Hpre (Hds d Hd')). }
  destruct (Configure_cases ext ctx req r0)
    as [Hpre|Hpre Hu|Hpre Hu Hm|c e Hpre Hu Hm Hc|c Hpre Hu Hm Hc].
  all: unfold failed; cbn [trace resp Diagnostics DataSourceData ResourceData].
  - done.
  - apply Happ; [done|apply Forall_error_unknown_diags|].
    unfold unknown_diags. cbn [mbind list_bind all_fields].
    destruct (IsUnknown _), (IsUnknown _), (IsUnknown _); cbn [app].
    all: repeat (apply NoDup_cons; split;
                 [rewrite ?elem_of_cons, elem_of_nil;
                  intros H; repeat destruct H as [H|H];
                  try discriminate H; done|]).
    all: apply NoDup_nil_2.
  - apply Happ; [done|apply Forall_error_missing_diags|].
    unfold missing_diags. cbn [mbind list_bind all_fields].
    destruct (_ =? _)%string, (_ =? _)%string, (_ =? _)%string; cbn [app].
    all: repeat (apply NoDup_cons; split;
                 [rewrite ?elem_of_cons, elem_of_nil;
                  intros H; repeat destruct H as [H|H];
                  try discriminate H; done|]).
    all: apply NoDup_nil_2.
  - apply Happ; [done|by repeat constructor|apply NoDup_singleton].
  - done.
Qed.

End More.

Section More2.
Context {Client : Type}.

(** X4. [Configure] ends without an error in the diagnostics exactly
    when the read holds no error, no attribute is unknown, no merged
    value is empty and [sna.NewClient] returns no error; and exactly
    then it runs to its end. *)
Theorem Configure_succeeds_iff (ext : Extern Client) ctx req
    (r0 : ConfigureResponse Client) :
  let config := (Config_Get req).1 in
  let merged := merged_value config (environ ext) in
  let st := run_Configure ext ctx req r0 in
  let valid :=
    HasError (read_diags req r0) = false ∧
    (∀ f, IsUnknown (field_value config f) = false) ∧
    (∀ f, merged f ≠ "") ∧
    (sna_NewClient ext (merged FHost) (merged FUsername) (merged FPassword)).2
    = None in
  (HasError (Diagnostics (resp st)) = false ↔ valid) ∧
  (configured (trace st) = true ↔ valid).
Proof.
  intros config merged st valid.
  assert (∀ b1 b2 : bool, ¬ valid → b1 = true → b2 = false →
            (b1 = false ↔ valid) ∧ (b2 = true ↔ valid)) as Hfail.
  { intros b1 b2 Hnv -> ->. split; (split; [done|intros Hv; by apply Hnv in Hv]). }
  subst config merged st valid.
  destruct (Configure_cases ext ctx req r0)
    as [Hpre|Hpre Hu|Hpre Hu Hm|c e Hpre Hu Hm Hc|c Hpre Hu Hm Hc].
  all: unfold failed; cbn [trace resp Diagnostics DataSourceData ResourceData].
  - apply Hfail; [|done|reflexivity]. intros (? & _); congruence.
  - apply Hfail; [| |reflexivity].
    + intros (_ & Hk & _). apply unknown_diags_nil in Hk. congruence.
    + rewrite HasError_app_clean by done.
      apply HasError_errors; [apply Forall_error_unknown_diags|done].
  - apply Hfail; [| |reflexivity].
    + intros (_ & _ & Hf & _). apply missing_diags_nil in Hf. congruence.
    + rewrite HasError_app_clean by done.
      apply HasError_errors; [apply Forall_error_missing_diags|done].
  - apply Hfail; [| |reflexivity].
    + intros (_ & _ & _ & Hn). rewrite Hc in Hn. discriminate.
    + by rewrite HasError_app_clean.
  - rewrite Hpre. unfold configured. rewrite last_snoc.
    pose proof (proj1 (unknown_diags_nil _) Hu) as Hknown.
    pose proof (proj1 (missing_diags_nil _ _) Hm) as Hfull.
    split; (split; [intros _|done]); by rewrite Hc.
Qed.

(** X5. What [Configure] adds is of one kind and in the order of the
    attributes: some of the three unknown-value errors, or some of the
    three missing-value errors, or the one construction error. The two
    validations never report together. *)
Theorem Configure_adds_one_kind (ext : Extern Client) ctx req
    (r0 : ConfigureResponse Client) :
  let added := added_diags req r0 (run_Configure ext ctx req r0) in
  added `sublist_of` (unknown_diag <$> all_fields) ∨
  added `sublist_of` (missing_diag <$> all_fields) ∨
  (∃ text, added = [construction_diag text]).
Proof.
  intros added. subst added.
  destruct (Configure_cases ext ctx req r0)
    as [Hpre|Hpre Hu|Hpre Hu Hm|c e Hpre Hu Hm Hc|c Hpre Hu Hm Hc].
  all: rewrite ?added_diags_failed, ?added_diags_read,
         ?added_diags_failed_read.
  - left. apply sublist_nil_l.
  - left. unfold unknown_diags. cbn [mbind list_bind all_fields fmap list_fmap].
    destruct (IsUnknown _), (IsUnknown _), (IsUnknown _); cbn [app].
    all: repeat first [apply sublist_nil | apply sublist_skip; [] |
                       apply sublist_cons ].
    all: repeat first [apply sublist_nil | apply sublist_skip ].
  - right. left.
    unfold missing_diags. cbn [mbind list_bind all_fields fmap list_fmap].
    destruct (_ =? _)%string, (_ =? _)%string, (_ =? _)%string; cbn [app].
    all: repeat first [apply sublist_nil | apply sublist_skip; [] |
                       apply sublist_cons ].
    all: repeat first [apply sublist_nil | apply sublist_skip ].
  - right. right. by exists e.
  - left. apply sublist_nil_l.
Qed.

(** X6. [Configure] reads the environment all or nothing: the three
    variables [SNA_HOST], [SNA_USERNAME], [SNA_PASSWORD], once each and
    in this order, exactly when the read holds no error and no
    attribute is unknown, also when all three attributes are
    configured; no other variable is read. [sna.NewClient] is called at
    most once, and only after the three reads: wherever a call stands
    in the trace, the three reads and no other call stand before it,
    and no read stands after it. *)
Theorem Configure_reads_environment (ext : Extern Client) ctx req
    (r0 : ConfigureResponse Client) :
  let st := run_Configure ext ctx req r0 in
  let three := ["SNA_HOST"; "SNA_USERNAME"; "SNA_PASSWORD"] in
  (Getenv_calls (trace st) = [] ∨ Getenv_calls (trace st) = three) ∧
  (Getenv_calls (trace st) = three ↔
     HasError (read_diags req r0) = false ∧
     ∀ f, IsUnknown (field_value (Config_Get req).1 f) = false) ∧
  (length (NewClient_calls (trace st)) ≤ 1)%nat ∧
  (NewClient_calls (trace st) ≠ [] → Getenv_calls (trace st) = three) ∧
  (∀ i h u p,
     trace st !! i = Some (EvNewClient h u p) →
     Getenv_calls (take i (trace st)) = three ∧
     NewClient_calls (take i (trace st)) = [] ∧
     Getenv_calls (drop i (trace st)) = []).
Proof.
  intros st three. subst st three.
  destruct (Configure_cases ext ctx req r0)
    as [Hpre|Hpre Hu|Hpre Hu Hm|c e Hpre Hu Hm Hc|c Hpre Hu Hm Hc].
  all: unfold failed; cbn [trace resp Diagnostics DataSourceData ResourceData].
  all: rewrite ?Getenv_calls_start, ?Getenv_calls_getenv, ?Getenv_calls_client,
         ?Getenv_calls_configured, ?NewClient_calls_start,
         ?NewClient_calls_getenv, ?NewClient_calls_client,
         ?NewClient_calls_configured.
  all: try pose proof (proj1 (unknown_diags_nil _) Hu) as Hknown.
  all: split; [first [by left | by right]|].
  all: split;
    [first [ done
           | split; [done|]; intros (? & Hk);
             try apply unknown_diags_nil in Hk; congruence ]|].
  all: split; [cbn; lia|].
  all: split; [done|].
  all: intros i h u p Hi.
  all: unfold client_trace, start_trace, getenv_trace in Hi |- *.
  all: cbn [app] in Hi |- *.
  all: do 8 (destruct i as [|i]; [cbn in Hi; try discriminate Hi; done|]).
  all: cbn in Hi; discriminate Hi.
Qed.

(** X7. When no attribute is null, the environment plays no part: in
    any two environments, with client libraries that answer alike,
    [Configure] leaves the same state. *)
Theorem Configure_configured_ignores_environment (ext1 ext2 : Extern Client)
    ctx req (r0 : ConfigureResponse Client) :
  (∀ f, IsNull (field_value (Config_Get req).1 f) = false) →
  (∀ h u p, sna_NewClient ext1 h u p = sna_NewClient ext2 h u p) →
  run_Configure ext1 ctx req r0 = run_Configure ext2 ctx req r0.
Proof.
  intros Hnull Hsame.
  assert (∀ f, merged_value (Config_Get req).1 (environ ext1) f
               = merged_value (Config_Get req).1 (environ ext2) f) as Hm.
  { intros f. unfold merged_value. by rewrite (Hnull f). }
  rewrite !run_Configure_outcome. unfold outcome, missing_diags.
  cbn [mbind list_bind all_fields].
  rewrite !Hm, Hsame. reflexivity.
Qed.

(** X8. Configuring one attribute with a non-empty value, past the
    gate on unknown values: its missing-value error is gone whatever
    the environment holds, and each other attribute is reported missing
    exactly as before. *)
Theorem Configure_fixing_one_attribute (ext : Extern Client) ctx
    (config config' : snaProviderModel) (diags : diag_Diagnostics)
    (r0 : ConfigureResponse Client) (f : Field) (v : string) :
  let st := run_Configure ext ctx {| Config_Get := (config, diags) |} r0 in
  let st' := run_Configure ext ctx {| Config_Get := (config', diags) |} r0 in
  HasError (Append (Diagnostics r0) diags) = false →
  (∀ g, IsUnknown (field_value config g) = false) →
  field_value config' f = StringValue v →
  v ≠ "" →
  (∀ g, g ≠ f → field_value config' g = field_value config g) →
  (missing_diag f ∉ Diagnostics (resp st')) ∧
  (∀ g, g ≠ f →
        (missing_diag g ∈ Diagnostics (resp st') ↔
         missing_diag g ∈ Diagnostics (resp st))).
Proof.
  intros st st' Hread Hknown Hf Hv Hother. subst st st'.
  assert (∀ g, IsUnknown (field_value config' g) = false) as Hknown'.
  { intros g. destruct (decide (g = f)) as [->|Hne]; [by rewrite Hf|].
    by rewrite Hother. }
  destruct (Configure_validated ext ctx {| Config_Get := (config, diags) |} r0
              Hread Hknown) as (Hmiss & _).
  destruct (Configure_validated ext ctx {| Config_Get := (config', diags) |} r0
              Hread Hknown') as (Hmiss' & _).
  cbn [Config_Get fst] in Hmiss, Hmiss'.
  split.
  - rewrite Hmiss'. unfold merged_value. by rewrite Hf.
  - intros g Hne. rewrite Hmiss, Hmiss'. unfold merged_value.
    by rewrite (Hother g Hne).
Qed.

(** X9. A null attribute whose variable is unset or empty and an
    attribute configured as the empty string are the same to
    [Configure]: the two runs leave the same state. *)
Theorem Configure_null_as_empty (ext : Extern Client) ctx
    (config config' : snaProviderModel) (diags : diag_Diagnostics)
    (r0 : ConfigureResponse Client) (f : Field) :
  field_value config f = StringNull →
  field_value config' f = StringValue "" →
  (∀ g, g ≠ f → field_value config' g = field_value config g) →
  environ ext !! field_env f = None ∨ environ ext !! field_env f = Some "" →
  run_Configure ext ctx {| Config_Get := (config, diags) |} r0
  = run_Configure ext ctx {| Config_Get := (config', diags) |} r0.
Proof.
  intros Hnull Hempty Hother Henv.
  assert (∀ g, IsUnknown (field_value config' g)
               = IsUnknown (field_value config g)) as Hu.
  { intros g. destruct (decide (g = f)) as [->|Hne];
      [by rewrite Hnull, Hempty|by rewrite Hother]. }
  assert (∀ g, merged_value config' (environ ext) g
               = merged_value config (environ ext) g) as Hm.
  { intros g. unfold merged_value.
    destruct (decide (g = f)) as [->|Hne]; [|by rewrite Hother].
    rewrite Hnull, Hempty. cbn. by destruct Henv as [-> | ->]. }
  rewrite !run_Configure_outcome. unfold outcome, read_diags.
  cbn [Config_Get fst snd].
  unfold unknown_diags, missing_diags. cbn [mbind list_bind all_fields].
  rewrite !Hu, !Hm. reflexivity.
Qed.

(** X10. The logging context has no part in the result: with any two
    contexts the response is the same, and so are the environment reads
    and the client constructions. *)
Theorem Configure_response_ignores_logging (ext : Extern Client) ctx1 ctx2 req
    (r0 : ConfigureResponse Client) :
  let st1 := run_Configure ext ctx1 req r0 in
  let st2 := run_Configure ext ctx2 req r0 in
  resp st1 = resp st2 ∧
  Getenv_calls (trace st1) = Getenv_calls (trace st2) ∧
  NewClient_calls (trace st1) = NewClient_calls (trace st2).
Proof.
  intros st1 st2. subst st1 st2.
  rewrite !run_Configure_outcome. unfold outcome.
  destruct (HasError _); [done|].
  destruct (unknown_diags _); [|done].
  destruct (missing_diags _ _); [|done].
  destruct (sna_NewClient ext _ _ _) as [c [e|]]; done.
Qed.

End More2.

(** The log records of a trace are among those [Configure] can write. *)
Lemma Configure_log_records {Client : Type} (ext : Extern Client) ctx req
    (r0 : ConfigureResponse Client) level c msg fields :
  let merged := merged_value (Config_Get req).1 (environ ext) in
  EvLog level c msg fields ∈ trace (run_Configure ext ctx req r0) →
  (c = ctx ∧ fields = []) ∨
  (c = client_ctx ctx (merged FHost) (merged FUsername) (merged FPassword) ∧
   (fields = [] ∨ fields = [("success", "true")])).
Proof.
  intros merged Hin. subst merged.
  destruct (Configure_cases ext ctx req r0)
    as [Hpre|Hpre Hu|Hpre Hu Hm|c' e Hpre Hu Hm Hc|c' Hpre Hu Hm Hc].
  all: unfold failed, client_trace, start_trace, getenv_trace in Hin.
  all: cbn [trace app] in Hin.
  all: repeat (apply elem_of_cons in Hin as [Hin|Hin]).
  all: try (by apply elem_of_nil in Hin).
  all: try discriminate Hin.
  all: injection Hin as -> -> -> ->; auto.
Qed.

Section More3.
Context {Client : Type}.


(** X12. [Schema] and [Configure] agree on the attributes: the schema
    declares exactly [host], [username] and [password], each optional
    and none required, and every attribute path of a diagnostic that
    [Configure] adds names an attribute of the schema. *)
Theorem Configure_diagnostics_name_schema_attributes (p : snaProvider)
    (sresp : SchemaResponse) (ext : Extern Client) ctx req
    (r0 : ConfigureResponse Client) :
  let attributes := Attributes (resp_Schema (Schema p sresp)) in
  let added := added_diags req r0 (run_Configure ext ctx req r0) in
  (∀ name, is_Some (attributes !! name) ↔ ∃ f, name = field_name f) ∧
  (∀ name a, attributes !! name = Some a →
             Optional a = true ∧ Required a = false) ∧
  (∀ d name, d ∈ added → AttributePath d = Some (path_Root name) →
             is_Some (attributes !! name)).
Proof.
  intros attributes added.
  assert (∀ f, is_Some (attributes !! field_name f)) as Hdeclared.
  { intros []; vm_compute; eauto. }
  split; [|split].
  - intros name. split; [|intros [f ->]; apply Hdeclared].
    intros [a Ha]. subst attributes. cbn in Ha.
    apply lookup_insert_Some in Ha as [[<- _]|[_ Ha]]; [by exists FHost|].
    apply lookup_insert_Some in Ha as [[<- _]|[_ Ha]]; [by exists FUsername|].
    apply lookup_singleton_Some in Ha as [<- _]. by exists FPassword.
  - intros name a Ha. subst attributes. cbn in Ha.
    apply lookup_insert_Some in Ha as [[_ <-]|[_ Ha]]; [done|].
    apply lookup_insert_Some in Ha as [[_ <-]|[_ Ha]]; [done|].
    by apply lookup_singleton_Some in Ha as [_ <-].
  - subst added. intros d name Hd Hpath.
    destruct (Configure_cases ext ctx req r0)
      as [Hpre|Hpre Hu|Hpre Hu Hm|c e Hpre Hu Hm Hc|c Hpre Hu Hm Hc].
    all: rewrite ?added_diags_failed, ?added_diags_read,
           ?added_diags_failed_read in Hd.
    + by apply elem_of_nil in Hd.
    + apply elem_of_unknown_diags in Hd as (f & -> & _).
      rewrite unknown_diag_path in Hpath. injection Hpath as <-.
      apply Hdeclared.
    + apply elem_of_missing_diags in Hd as (f & -> & _).
      rewrite missing_diag_path in Hpath. injection Hpath as <-.
      apply Hdeclared.
    + apply list_elem_of_singleton in Hd as ->. discriminate Hpath.
    + by apply elem_of_nil in Hd.
Qed.

(** X13. Each attribute of the schema is logged under the key [sna_]
    followed by its name, in every record not written with the caller's
    own context, and that key is masked there if the attribute is
    sensitive; if it is not sensitive, [Configure] does not mask it. *)
Theorem Schema_sensitive_is_masked (p : snaProvider) (sresp : SchemaResponse)
    (ext : Extern Client) ctx req (r0 : ConfigureResponse Client)
    name a level c msg fields :
  Attributes (resp_Schema (Schema p sresp)) !! name = Some a →
  EvLog level c msg fields ∈ trace (run_Configure ext ctx req r0) →
  c ≠ ctx →
  (∃ v, log_fields c !! ("sna_" +:+ name) = Some v) ∧
  (Sensitive a = true → ("sna_" +:+ name) ∈ log_masked c) ∧
  (Sensitive a = false →
   ("sna_" +:+ name) ∈ log_masked c → ("sna_" +:+ name) ∈ log_masked ctx).
Proof.
  intros Ha Hin Hne.
  destruct (Configure_log_records ext ctx req r0 level c msg fields Hin)
    as [[-> _]|[-> _]]; [done|].
  unfold client_ctx, tflog_MaskFieldValuesWithFieldKeys, tflog_SetField.
  cbn [log_fields log_masked].
  cbn in Ha.
  apply lookup_insert_Some in Ha as [[<- <-]|[_ Ha]];
    [|apply lookup_insert_Some in Ha as [[<- <-]|[_ Ha]];
      [|apply lookup_singleton_Some in Ha as [<- <-]]].
  all: cbn [Sensitive String.append].
  all: split;
    [eexists;
     first [ apply lookup_insert_eq
           | rewrite lookup_insert_ne by discriminate;
             first [ apply lookup_insert_eq
                   | rewrite lookup_insert_ne by discriminate;
                     apply lookup_insert_eq ] ]|].
  all: split; [try discriminate|].
  all: try (intros _; rewrite elem_of_app, list_elem_of_singleton;
            intros [?|?]; [done|discriminate]).
  - intros _. apply elem_of_app. right. by apply list_elem_of_singleton.
  - discriminate.
Qed.

(** X14. The texts name the right variable. A diagnostic that
    [Configure] adds at the path of an attribute mentions the
    environment variable read for that attribute and the variable of no
    other attribute, and so does the description of the attribute in
    the schema. *)
Theorem Configure_texts_name_variable (p : snaProvider) (sresp : SchemaResponse)
    (ext : Extern Client) ctx req (r0 : ConfigureResponse Client) (f g : Field) :
  let added := added_diags req r0 (run_Configure ext ctx req r0) in
  (∀ d, d ∈ added → AttributePath d = Some (field_path f) →
        (mentions (Detail d) (field_env g) = true ↔ f = g)) ∧
  (∀ a, Attributes (resp_Schema (Schema p sresp)) !! field_name f = Some a →
        (mentions (Description a) (field_env g) = true ↔ f = g)).
Proof.
  intros added. subst added. split.
  - intros d Hd Hpath.
    assert (d = unknown_diag f ∨ d = missing_diag f) as [-> | ->].
    { destruct (Configure_cases ext ctx req r0)
        as [Hpre|Hpre Hu|Hpre Hu Hm|c e Hpre Hu Hm Hc|c Hpre Hu Hm Hc].
      all: rewrite ?added_diags_failed, ?added_diags_read,
             ?added_diags_failed_read in Hd.
      - by apply elem_of_nil in Hd.
      - apply elem_of_unknown_diags in Hd as (f' & -> & _). left.
        rewrite unknown_diag_path in Hpath.
        destruct f, f'; (done || discriminate Hpath).
      - apply elem_of_missing_diags in Hd as (f' & -> & _). right.
        rewrite missing_diag_path in Hpath.
        destruct f, f'; (done || discriminate Hpath).
      - apply list_elem_of_singleton in Hd as ->. discriminate Hpath.
      - by apply elem_of_nil in Hd. }
    all: destruct f, g; vm_compute; split; (done || discriminate).
  - intros a Ha.
    destruct f; vm_compute in Ha; injection Ha as <-.
    all: destruct g; vm_compute; split; (done || discriminate).
Qed.

(** X15. While the read holds an error or some attribute is unknown,
    neither the environment nor the client library has any part in
    the result: the state [Configure] leaves is the same in every
    outside world. *)
Theorem Configure_unknown_ignores_world (ext1 ext2 : Extern Client) ctx req
    (r0 : ConfigureResponse Client) :
  HasError (read_diags req r0) = true ∨
  (∃ f, IsUnknown (field_value (Config_Get req).1 f) = true) →
  run_Configure ext1 ctx req r0 = run_Configure ext2 ctx req r0.
Proof.
  intros Hstop. rewrite !run_Configure_outcome. unfold outcome.
  destruct (HasError _) eqn:Hpre; [done|].
  destruct Hstop as [?|[f Hf]]; [done|].
  destruct (unknown_diags _) eqn:Hu; [|done].
  pose proof (proj1 (unknown_diags_nil _) Hu f). congruence.
Qed.

(** X16. Setting an environment variable to a non-empty value, past
    the gate on unknown values. If its attribute is null, the
    attribute's missing-value error is gone; if its attribute is
    configured, also as the empty string, nothing changes for it; and
    each other attribute is reported missing exactly as before. *)
Theorem Configure_setting_variable (ext : Extern Client) ctx req
    (r0 : ConfigureResponse Client) (f : Field) (b : string) :
  let config := (Config_Get req).1 in
  let st := run_Configure ext ctx req r0 in
  let st' := run_Configure (with_variable ext (field_env f) b) ctx req r0 in
  HasError (read_diags req r0) = false →
  (∀ g, IsUnknown (field_value config g) = false) →
  b ≠ "" →
  (field_value config f = StringNull →
   missing_diag f ∉ Diagnostics (resp st')) ∧
  (field_value config f ≠ StringNull →
   (missing_diag f ∈ Diagnostics (resp st') ↔
    missing_diag f ∈ Diagnostics (resp st))) ∧
  (∀ g, g ≠ f →
        (missing_diag g ∈ Diagnostics (resp st') ↔
         missing_diag g ∈ Diagnostics (resp st))).
Proof.
  intros config st st' Hread Hknown Hb. subst config st st'.
  destruct (Configure_validated ext ctx req r0 Hread Hknown) as (Hmiss & _).
  destruct (Configure_validated (with_variable ext (field_env f) b) ctx req r0
              Hread Hknown) as (Hmiss' & _).
  cbn [with_variable environ] in Hmiss'.
  split; [|split].
  - intros Hnull. rewrite Hmiss'. unfold merged_value. rewrite Hnull. cbn.
    by rewrite lookup_insert_eq.
  - intros Hset. rewrite Hmiss, Hmiss'. unfold merged_value.
    by destruct (field_value _ f).
  - intros g Hne. rewrite Hmiss, Hmiss'. unfold merged_value.
    rewrite lookup_insert_ne; [done|].
    intros Heq. apply Hne. by destruct f, g.
Qed.

End More3.


(** ** The further properties on the example inputs *)

Lemma Configure_returns_on_read_error_witness :
  HasError (read_diags failed_request fresh_response) = true ∧
  run_Configure empty_extern background failed_request fresh_response
  = {| resp :=
         {| Diagnostics :=
              Append (Diagnostics fresh_response) (Config_Get failed_request).2;
            DataSourceData := DataSourceData fresh_response;
            ResourceData := ResourceData fresh_response |};
       trace :=
         [EvLog LevelInfo background
            "Configuring Secure Network Analytics client" []] |}.
Proof.
  split; [reflexivity|].
  apply (Configure_returns_on_read_error empty_extern background failed_request
           fresh_response).
  reflexivity.
Defined.

Lemma Configure_keeps_NoDup_witness :
  NoDup (Diagnostics fresh_response) ∧
  NoDup (Diagnostics (resp (run_Configure empty_extern background
                              (request_of null_config) fresh_response))).
Proof.
  split; [apply NoDup_nil_2|].
  apply (Configure_keeps_NoDup empty_extern background (request_of null_config)
           fresh_response).
  apply NoDup_nil_2.
Defined.

Lemma Configure_configured_ignores_environment_witness :
  (∀ f, IsNull (field_value full_config f) = false) ∧
  (∀ h u p, sna_NewClient credentials_extern h u p
            = sna_NewClient host_extern h u p) ∧
  run_Configure credentials_extern background (request_of full_config)
    fresh_response
  = run_Configure host_extern background (request_of full_config)
      fresh_response.
Proof.
  split; [intros []; reflexivity|]. split; [reflexivity|].
  apply (Configure_configured_ignores_environment credentials_extern host_extern
           background (request_of full_config) fresh_response).
  - intros []; reflexivity.
  - reflexivity.
Defined.

Lemma Configure_fixing_one_attribute_witness :
  let st :=
    run_Configure empty_extern background
      {| Config_Get := (null_config, []) |} fresh_response in
  let st' :=
    run_Configure empty_extern background
      {| Config_Get := (host_only_config, []) |} fresh_response in
  HasError (Append (Diagnostics fresh_response) []) = false ∧
  (∀ g, IsUnknown (field_value null_config g) = false) ∧
  field_value host_only_config FHost = StringValue "http://x" ∧
  "http://x" ≠ "" ∧
  (∀ g, g ≠ FHost →
        field_value host_only_config g = field_value null_config g) ∧
  (missing_diag FHost ∉ Diagnostics (resp st')) ∧
  (∀ g, g ≠ FHost →
        (missing_diag g ∈ Diagnostics (resp st') ↔
         missing_diag g ∈ Diagnostics (resp st))).
Proof.
  intros st st'.
  assert (∀ g, IsUnknown (field_value null_config g) = false) as Hknown
    by (intros []; reflexivity).
  assert (∀ g, g ≠ FHost →
               field_value host_only_config g = field_value null_config g)
    as Hother by (intros [] Hne; [by destruct Hne|reflexivity|reflexivity]).
  split; [reflexivity|]. split; [exact Hknown|]. split; [reflexivity|].
  split; [discriminate|]. split; [exact Hother|].
  apply (Configure_fixing_one_attribute empty_extern background null_config
           host_only_config [] fresh_response FHost "http://x");
    [reflexivity|exact Hknown|reflexivity|discriminate|exact Hother].
Defined.

Lemma Configure_null_as_empty_witness :
  field_value null_host_config FHost = StringNull ∧
  field_value empty_host_config FHost = StringValue "" ∧
  (∀ g, g ≠ FHost →
        field_value empty_host_config g = field_value null_host_config g) ∧
  (environ empty_extern !! field_env FHost = None ∨
   environ empty_extern !! field_env FHost = Some "") ∧
  run_Configure empty_extern background
    {| Config_Get := (null_host_config, []) |} fresh_response
  = run_Configure empty_extern background
      {| Config_Get := (empty_host_config, []) |} fresh_response.
Proof.
  assert (∀ g, g ≠ FHost →
               field_value empty_host_config g = field_value null_host_config g)
    as Hother by (intros [] Hne; [by destruct Hne|reflexivity|reflexivity]).
  split; [reflexivity|]. split; [reflexivity|]. split; [exact Hother|].
  split; [left; vm_compute; reflexivity|].
  apply (Configure_null_as_empty empty_extern background null_host_config
           empty_host_config [] fresh_response FHost);
    [reflexivity|reflexivity|exact Hother|left; vm_compute; reflexivity].
Defined.


Lemma Schema_sensitive_is_masked_witness :
  let c := client_ctx background "http://x" "u" "p" in
  let a :=
    {| Description := "Password for Secure Network Analytics API. May also be provided via SNA_PASSWORD environment variable.";
       Required := false; Optional := true; Sensitive := true |} in
  let st :=
    run_Configure credentials_extern background (request_of host_only_config)
      fresh_response in
  Attributes (resp_Schema (Schema {| version := "dev" |}
                             {| resp_Schema :=
                                  {| Schema_Description := "";
                                     Attributes := ∅ |} |}))
    !! "password" = Some a ∧
  EvLog LevelDebug c "Creating Secure Network Analytics client" [] ∈ trace st ∧
  c ≠ background ∧
  (∃ v, log_fields c !! ("sna_" +:+ "password") = Some v) ∧
  (Sensitive a = true → ("sna_" +:+ "password") ∈ log_masked c).
Proof.
  intros c a st.
  assert (Attributes (resp_Schema (Schema {| version := "dev" |}
                             {| resp_Schema :=
                                  {| Schema_Description := "";
                                     Attributes := ∅ |} |}))
            !! "password" = Some a) as Ha by (vm_compute; reflexivity).
  assert (EvLog LevelDebug c "Creating Secure Network Analytics client" []
          ∈ trace st) as Hin.
  { apply (bool_decide_unpack _). vm_compute. exact I. }
  assert (c ≠ background) as Hne
    by (intros Heq; apply (f_equal log_masked) in Heq; discriminate Heq).
  split; [exact Ha|]. split; [exact Hin|]. split; [exact Hne|].
  destruct (Schema_sensitive_is_masked {| version := "dev" |}
              {| resp_Schema := {| Schema_Description := ""; Attributes := ∅ |} |}
              credentials_extern background (request_of host_only_config)
              fresh_response "password" a LevelDebug c
              "Creating Secure Network Analytics client" [] Ha Hin Hne)
    as (Hlogged & Hmasked & _).
  split; [exact Hlogged|exact Hmasked].
Defined.

Lemma Configure_unknown_ignores_world_witness :
  (HasError (read_diags (request_of unknown_host_config) fresh_response) = true ∨
   ∃ f, IsUnknown (field_value unknown_host_config f) = true) ∧
  run_Configure empty_extern background (request_of unknown_host_config)
    fresh_response
  = run_Configure refusing_extern background (request_of unknown_host_config)
      fresh_response.
Proof.
  split; [right; exists FHost; reflexivity|].
  apply (Configure_unknown_ignores_world empty_extern refusing_extern background
           (request_of unknown_host_config) fresh_response).
  right. exists FHost. reflexivity.
Defined.

Lemma Configure_setting_variable_witness :
  let st :=
    run_Configure empty_extern background (request_of null_config)
      fresh_response in
  let st' :=
    run_Configure (with_variable empty_extern (field_env FHost) "http://x")
      background (request_of null_config) fresh_response in
  HasError (read_diags (request_of null_config) fresh_response) = false ∧
  (∀ g, IsUnknown (field_value null_config g) = false) ∧
  "http://x" ≠ "" ∧
  (field_value null_config FHost = StringNull →
   missing_diag FHost ∉ Diagnostics (resp st')) ∧
  (∀ g, g ≠ FHost →
        (missing_diag g ∈ Diagnostics (resp st') ↔
         missing_diag g ∈ Diagnostics (resp st))).
Proof.
  intros st st'.
  assert (∀ g, IsUnknown (field_value null_config g) = false) as Hknown
    by (intros []; reflexivity).
  split; [reflexivity|]. split; [exact Hknown|]. split; [discriminate|].
  destruct (Configure_setting_variable empty_extern background
              (request_of null_config) fresh_response FHost "http://x")
    as (Hnull & _ & Hother); [reflexivity|exact Hknown|discriminate|].
  split; [exact Hnull|exact Hother].
Defined.
